(** * Damtomo extractors (yt_dlp/extractor/damtomo.py)

    A shallow embedding of [DamtomoVideoIE._real_extract] and
    [DamtomoRecordIE._real_extract].  A Python [str] is a list of Unicode
    code points ([list Z]); Python literals are written as UTF-8 Rocq
    strings and decoded with [py].  The regular expressions of the source
    are transcribed into matchers that follow the backtracking order of
    Python's [re] engine; [dict] values are stdpp [gmap]s. *)

From stdpp Require Import base list gmap.
From Stdlib Require Import ZArith String Ascii.

Local Open Scope Z_scope.
Local Open Scope list_scope.

(** ** Python strings *)

Abbreviation pystr := (list Z).

Definition byte_of (a : ascii) : Z := Z.of_N (N_of_ascii a).

(** UTF-8 decoding of a Rocq string literal into code points. *)
Fixpoint py (s : string) : pystr :=
  match s with
  | EmptyString => []
  | String a r =>
      let b := byte_of a in
      if b <? 128 then b :: py r
      else if b <? 224 then
        match r with
        | String a1 r1 => ((b - 192) * 64 + (byte_of a1 - 128)) :: py r1
        | EmptyString => []
        end
      else if b <? 240 then
        match r with
        | String a1 (String a2 r2) =>
            (((b - 224) * 64 + (byte_of a1 - 128)) * 64 + (byte_of a2 - 128)) :: py r2
        | _ => []
        end
      else
        match r with
        | String a1 (String a2 (String a3 r3)) =>
            ((((b - 240) * 64 + (byte_of a1 - 128)) * 64 + (byte_of a2 - 128)) * 64
               + (byte_of a3 - 128)) :: py r3
        | _ => []
        end
  end.

Definition QUOTE : Z := 34.   (* the double quote *)
Definition SLASH : Z := 47.   (* '/' *)
Definition LT : Z := 60.      (* '<' *)
Definition SPACE : Z := 32.   (* ' ' *)
Definition NEWLINE : Z := 10. (* '\n' *)

(** [\s] of a [str] pattern and [str.strip()]: Python's [Py_UNICODE_ISSPACE]. *)
Definition is_space (c : Z) : bool :=
  ((9 <=? c) && (c <=? 13)) || ((28 <=? c) && (c <=? 32)) || (c =? 133) || (c =? 160)
  || (c =? 5760) || ((8192 <=? c) && (c <=? 8202)) || (c =? 8232) || (c =? 8233)
  || (c =? 8239) || (c =? 8287) || (c =? 12288).

(** [\d] of a [str] pattern matches the Unicode decimal digits (category Nd);
    [int()] reads each one as its decimal value.  Each block of ten digits is
    listed by its zero (Unicode 13, as in Python 3.9 and 3.10). *)
Definition decimal_zeros : list Z :=
  [0x30; 0x660; 0x6F0; 0x7C0; 0x966; 0x9E6; 0xA66; 0xAE6; 0xB66; 0xBE6; 0xC66;
   0xCE6; 0xD66; 0xDE6; 0xE50; 0xED0; 0xF20; 0x1040; 0x1090; 0x17E0; 0x1810;
   0x1946; 0x19D0; 0x1A80; 0x1A90; 0x1B50; 0x1BB0; 0x1C40; 0x1C50; 0xA620;
   0xA8D0; 0xA900; 0xA9D0; 0xA9F0; 0xAA50; 0xABF0; 0xFF10; 0x104A0; 0x10D30;
   0x11066; 0x110F0; 0x11136; 0x111D0; 0x112F0; 0x11450; 0x114D0; 0x11650;
   0x116C0; 0x11730; 0x118E0; 0x11950; 0x11C50; 0x11D50; 0x11DA0; 0x16A60;
   0x16B50; 0x1D7CE; 0x1D7D8; 0x1D7E2; 0x1D7EC; 0x1D7F6; 0x1E140; 0x1E2F0;
   0x1E950; 0x1FBF0].

Definition digit_value (c : Z) : option Z :=
  match List.find (fun z => (z <=? c) && (c <=? z + 9)) decimal_zeros with
  | Some z => Some (c - z)
  | None => None
  end.

Definition is_digit (c : Z) : bool :=
  match digit_value c with Some _ => true | None => false end.

(** [int(s)] for a string of decimal digits. *)
Definition int_of_digits (s : pystr) : Z :=
  fold_left (fun acc c => acc * 10 + default 0 (digit_value c)) s 0.

Fixpoint is_prefix (p s : pystr) : bool :=
  match p, s with
  | [], _ => true
  | a :: p', b :: s' => (a =? b) && is_prefix p' s'
  | _ :: _, [] => false
  end.

Definition pystr_eqb (a b : pystr) : bool := bool_decide (a = b).

(** [needle in hay] *)
Fixpoint contains (needle hay : pystr) : bool :=
  is_prefix needle hay || match hay with [] => false | _ :: t => contains needle t end.

Fixpoint drop_while (p : Z -> bool) (s : pystr) : pystr :=
  match s with [] => [] | c :: t => if p c then drop_while p t else s end.

Fixpoint span (p : Z -> bool) (s : pystr) : pystr * pystr :=
  match s with
  | [] => ([], [])
  | c :: t => if p c then let '(a, b) := span p t in (c :: a, b) else ([], s)
  end.

(** [s.strip()] *)
Definition py_strip (s : pystr) : pystr :=
  rev (drop_while is_space (rev (drop_while is_space s))).

(** [re.search(pattern, s)]: the match tried at every position from the left;
    [m] is the pattern anchored at the current position. *)
Fixpoint search {A} (m : pystr -> option A) (s : pystr) : option A :=
  match m s with
  | Some a => Some a
  | None => match s with [] => None | _ :: t => search m t end
  end.

(** ** The regular expressions of [_real_extract]

    Each matcher is the pattern anchored at the start of its argument, as
    Python's backtracking engine runs it; a comment explains where a
    backtracking choice cannot change the outcome. *)

(** [re.finditer(r'(?s)<(p|div)\s+class=\x22([^\x22 ]+?)\x22>(.+?)</\1>', webpage)]
    (the double quote of the pattern is written [\x22] here). *)

(** [close] found at the first position of [s]: [(content, rest after close)]. *)
Fixpoint split_at_close (close s : pystr) : option (pystr * pystr) :=
  if is_prefix close s then Some ([], drop (List.length close) s)
  else match s with
       | [] => None
       | c :: t =>
           match split_at_close close t with
           | Some (a, r) => Some (c :: a, r)
           | None => None
           end
       end.

(** One alternative of the group [(p|div)]: [Some (label, content, rest)]. *)
Definition match_tag_alt (g1 s1 : pystr) : option (pystr * pystr * pystr) :=
  if is_prefix g1 s1 then
    (* [\s+] is greedy and [class=] starts with a non-space: only the
       longest run can be followed by it *)
    let '(ws, s3) := span is_space (drop (List.length g1) s1) in
    if bool_decide (ws = []) then None
    else if is_prefix (py "class=" ++ [QUOTE]) s3 then
      (* [([^\x22 ]+?)] is lazy and must be followed by a double quote, which
         it cannot contain: the label is the longest run of allowed chars *)
      let '(label, s6) := span (fun c => negb (c =? QUOTE) && negb (c =? SPACE))
                                (drop 7 s3) in
      if bool_decide (label = []) then None
      else if is_prefix [QUOTE; 62] s6 then
        (* [(.+?)</\1>]: the shortest non-empty content followed by the
           closing tag named by group 1 (DOTALL: any char) *)
        match drop 2 s6 with
        | [] => None
        | c :: t =>
            match split_at_close (py "</" ++ g1 ++ py ">") t with
            | Some (content, rest) => Some (label, c :: content, rest)
            | None => None
            end
        end
      else None
    else None
  else None.

Definition match_tag (s : pystr) : option (pystr * pystr * pystr) :=
  match s with
  | c :: s1 =>
      if c =? LT then
        match match_tag_alt (py "p") s1 with
        | Some r => Some r
        | None => match_tag_alt (py "div") s1
        end
      else None
  | [] => None
  end.

(** The scan goes on after each match; the fuel is the length of the page,
    enough since each step consumes at least one code point. *)
Fixpoint finditer_fuel (fuel : nat) (s : pystr) : list (pystr * pystr) :=
  match fuel with
  | O => []
  | S f =>
      match s with
      | [] => []
      | _ :: t =>
          match match_tag s with
          | Some (label, content, rest) => (label, content) :: finditer_fuel f rest
          | None => finditer_fuel f t
          end
      end
  end.

Definition finditer (s : pystr) : list (pystr * pystr) := finditer_fuel (List.length s) s.

(** [re.sub(r'\s+', ' ', v)]: every maximal run of whitespace becomes one
    space; [in_run] tells whether the previous code point was whitespace. *)
Fixpoint sub_ws_aux (in_run : bool) (v : pystr) : pystr :=
  match v with
  | [] => []
  | c :: t =>
      if is_space c then
        if in_run then sub_ws_aux true t else SPACE :: sub_ws_aux true t
      else c :: sub_ws_aux false t
  end.

Definition sub_ws (v : pystr) : pystr := sub_ws_aux false v.

(** [re.sub(r'\s*さん\s*$', '', s)].  [$] matches at the end and before a
    final newline. *)
Definition at_dollar (r : pystr) : bool :=
  match r with [] => true | [c] => c =? NEWLINE | _ => false end.

(** [\s*$] at the start of [r], over every length of the [\s*] run. *)
Fixpoint ws_star_dollar (r : pystr) : bool :=
  at_dollar r || match r with [] => false | c :: t => is_space c && ws_star_dollar t end.

Definition SAN : pystr := py "さん".

(** [\s*さん\s*$] at the start of [r]. *)
Fixpoint ws_star_san_dollar (r : pystr) : bool :=
  (is_prefix SAN r && ws_star_dollar (drop 2 r))
  || match r with [] => false | c :: t => is_space c && ws_star_san_dollar t end.

(** The first match starts at the first position where the pattern matches;
    its greedy trailing [\s*] then reaches the end of the string (all that
    follows is whitespace), so the match and everything after it is removed
    and the scan stops. *)
Fixpoint sub_san (s : pystr) : pystr :=
  if ws_star_san_dollar s then []
  else match s with [] => [] | c :: t => c :: sub_san t end.

(** [(?m)<div id=\x22public_comment\x22>\s*<p>\s*([^<]*?)\s*</p>]: both
    [\s*] before a [<] take the whole whitespace run; the lazy group then
    stops at the first [<] after its trailing whitespace, which must open
    [</p>]: the group is the text up to that [<] with its surrounding
    whitespace removed. *)
Definition PUBLIC_COMMENT : pystr := py "<div id=" ++ [QUOTE] ++ py "public_comment" ++ [QUOTE] ++ py ">".

Definition match_description (s : pystr) : option pystr :=
  if is_prefix PUBLIC_COMMENT s then
    let s1 := drop_while is_space (drop (List.length PUBLIC_COMMENT) s) in
    if is_prefix (py "<p>") s1 then
      let '(region, s3) := span (fun c => negb (c =? LT)) (drop 3 s1) in
      if is_prefix (py "</p>") s3 then Some (py_strip region) else None
    else None
  else None.

(** [<a href=\x22https://www\.clubdam\.com/app/damtomo/member/info/Profile\.do\?damtomoId=([^\x22]+)\x22]:
    the greedy group is the longest run without a double quote, which must
    be followed by one. *)
Definition PROFILE_HREF : pystr :=
  py "<a href=" ++ [QUOTE] ++ py "https://www.clubdam.com/app/damtomo/member/info/Profile.do?damtomoId=".

Definition match_uploader_id (s : pystr) : option pystr :=
  if is_prefix PROFILE_HREF s then
    let '(g, r) := span (fun c => negb (c =? QUOTE)) (drop (List.length PROFILE_HREF) s) in
    if bool_decide (g = []) then None
    else if is_prefix [QUOTE] r then Some g else None
  else None.

(** [(\d\d\d\d/\d\d/\d\d)] *)
Definition date_shaped (m : pystr) : bool :=
  match m with
  | [y1; y2; y3; y4; s1; m1; m2; s2; d1; d2] =>
      is_digit y1 && is_digit y2 && is_digit y3 && is_digit y4 && (s1 =? SLASH)
      && is_digit m1 && is_digit m2 && (s2 =? SLASH) && is_digit d1 && is_digit d2
  | _ => false
  end.

Definition match_date (s : pystr) : option pystr :=
  if date_shaped (take 10 s) then Some (take 10 s) else None.

(** [(\d+)]: greedy, so the longest run of digits. *)
Definition match_digits (s : pystr) : option pystr :=
  let '(run, _) := span is_digit s in
  if bool_decide (run = []) then None else Some run.

(** ** Exceptions and the extraction monad *)

Inductive exn :=
| ExtractorError (msg : pystr) (expected : bool)
| KeyError (key : pystr)
| AttributeError.

(** An extraction logs the URLs it requests and ends in a value or an
    exception. *)
Definition M (A : Type) : Type := list pystr -> list pystr * (exn + A).

Global Instance M_ret : MRet M := fun A a log => (log, inr a).
Global Instance M_bind : MBind M := fun A B k m log =>
  match m log with
  | (log', inl e) => (log', inl e)
  | (log', inr a) => k a log'
  end.

Definition raise {A} (e : exn) : M A := fun log => (log, inl e).

Definition run {A} (m : M A) : list pystr * (exn + A) := m [].

(** [d[k]] *)
Definition dict_get (d : gmap pystr pystr) (k : pystr) : M pystr :=
  match d !! k with Some v => mret v | None => raise (KeyError k) end.

(** Modelled from the spec: [try_get(src, getter, compat_str)] of
    yt_dlp/utils.py (not under src/): the getter's [AttributeError],
    [KeyError], [TypeError] and [IndexError] give [None], its string value is
    returned. *)
Definition try_get {A} (r : exn + A) : M (option A) :=
  match r with
  | inr v => mret (Some v)
  | inl (KeyError _) | inl AttributeError => mret None
  | inl e => raise e
  end.

(** [fmt % data_dict] for a format made of literal text and [%(key)s]
    conversions, read from the left. *)
Inductive fmt_piece := Lit (s : pystr) | Key (k : pystr).

Fixpoint percent_format (fmt : list fmt_piece) (d : gmap pystr pystr) : M pystr :=
  match fmt with
  | [] => mret []
  | Lit s :: f => r ← percent_format f d; mret (s ++ r)
  | Key k :: f => v ← dict_get d k; r ← percent_format f d; mret (v ++ r)
  end.

Definition TITLE_FMT : list fmt_piece :=
  [Key (py "song_title"); Lit (py "-"); Key (py "song_artist"); Lit (py "-"); Key (py "user_name")].

(** ** XML documents and the network *)

#[local] Set Warnings "-register-all".

(** An ElementTree element: qualified tag [(namespace, local name)], text,
    children. *)
Inductive xml := Elem (tag : pystr * pystr) (text : option pystr) (children : list xml).

Definition elem_text (e : xml) : option pystr := match e with Elem _ t _ => t end.

Definition elem_tag (e : xml) : pystr * pystr := match e with Elem t _ _ => t end.

(** [list(e.iter())[1:]]: the proper descendants of [e] in document order
    (preorder), the order in which ElementPath's [.//] visits them. *)
Fixpoint descendants (e : xml) : list xml :=
  match e with
  | Elem _ _ ch =>
      (fix go (l : list xml) : list xml :=
         match l with [] => [] | c :: cs => c :: descendants c ++ go cs end) ch
  end.

(** [e.find('.//d:tag', {'d': ns})]: the first descendant in document order. *)
Fixpoint find_desc (q : pystr * pystr) (e : xml) : option xml :=
  match e with
  | Elem _ _ ch =>
      (fix go (l : list xml) : option xml :=
         match l with
         | [] => None
         | c :: cs =>
             match c with
             | Elem t _ _ =>
                 if bool_decide (t = q) then Some c
                 else match find_desc q c with Some r => Some r | None => go cs end
             end
         end) ch
  end.

(** The downloaders of the host framework: [_download_webpage_handle] gives
    the decoded page and the final URL after redirects ([handle.url]);
    [_download_xml] gives the parsed document.  Both may raise. *)
Record net := {
  download_webpage_handle : pystr -> exn + (pystr * pystr);
  download_xml : pystr -> exn + xml
}.

Definition fetch_webpage (n : net) (url : pystr) : M (pystr * pystr) :=
  fun log => (log ++ [url], download_webpage_handle n url).

Definition fetch_xml (n : net) (url : pystr) : M xml :=
  fun log => (log ++ [url], download_xml n url).

(** ** The result dictionary *)

Record format := {
  format_id : pystr; url : pystr; ext : pystr; protocol : pystr
}.

Record info := {
  id : pystr;
  title : pystr;
  uploader_id : option pystr;
  description : option pystr;
  formats : list format;
  uploader : pystr;
  upload_date : option pystr;
  view_count : option Z;
  like_count : option Z;
  song_title : pystr;
  song_artist : pystr
}.

(** ** Constants of the source *)

Definition SORRY_URL : pystr := py "https://www.clubdam.com/sorry/".
Definition SERVER_ERROR_MARKER : pystr := py "<h2>予期せぬエラーが発生しました。</h2>".
Definition RATE_LIMITED_MSG : pystr := py "You are rate-limited. Try again later.".
Definition SERVER_ERROR_MSG : pystr := py "There is an error on server-side. Try again later.".
Definition NO_M3U8_MSG : pystr := py "Failed to obtain m3u8 URL".

Definition video_page_url (video_id : pystr) : pystr :=
  py "https://www.clubdam.com/app/damtomo/karaokeMovie/StreamingDkm.do?karaokeMovieId=" ++ video_id.
Definition video_xml_url (video_id : pystr) : pystr :=
  py "https://www.clubdam.com/app/damtomo/karaokeMovie/GetStreamingDkmUrlXML.do?movieSelectFlg=2&karaokeMovieId="
  ++ video_id.
Definition video_ns : pystr :=
  py "https://www.clubdam.com/app/damtomo/karaokeMovie/GetStreamingDkmUrlXML".

Definition record_page_url (video_id : pystr) : pystr :=
  py "https://www.clubdam.com/app/damtomo/karaokePost/StreamingKrk.do?karaokeContributeId=" ++ video_id.
Definition record_xml_url (video_id : pystr) : pystr :=
  py "https://www.clubdam.com/app/damtomo/karaokePost/GetStreamingKrkUrlXML.do?karaokeContributeId="
  ++ video_id.
Definition record_ns : pystr :=
  py "https://www.clubdam.com/app/damtomo/karaokePost/GetStreamingKrkUrlXML".

(** ** The steps shared by both extractors *)

Section Extract.

(** [clean_html] of yt_dlp/utils.py, left abstract: every result below holds
    whatever it does. *)
Variable clean_html : pystr -> pystr.

(** [{g.group(2): clean_html(g.group(3)) for g in re.finditer(...)}]: a later
    match overwrites an earlier one with the same label. *)
Definition data_dict_scan (webpage : pystr) : gmap pystr pystr :=
  foldl (fun d '(label, content) => <[label := clean_html content]> d) ∅ (finditer webpage).

(** [{k: re.sub(r'\s+', ' ', v) for k, v in data_dict.items() if v}] *)
Definition data_dict_of (webpage : pystr) : gmap pystr pystr :=
  sub_ws <$> filter (fun kv : pystr * pystr => kv.2 ≠ []) (data_dict_scan webpage).

(** The getter of [try_get(stream_tree, lambda x: x.find('.//d:streamingUrl',
    {'d': ns}).text.strip(), compat_str)]: [None.text] and [None.strip()]
    raise [AttributeError]. *)
Definition m3u8_getter (ns : pystr) (stream_tree : xml) : exn + pystr :=
  match find_desc (ns, py "streamingUrl") stream_tree with
  | None => inl AttributeError
  | Some e => match elem_text e with None => inl AttributeError | Some t => inr (py_strip t) end
  end.

(** Modelled from the spec ([_search_regex] with [default=None] returns the
    first group of the leftmost match, or [None]): the getter of
    [try_get(data_dict, lambda x: self._search_regex(
    r'(\d\d\d\d/\d\d/\d\d)', x['date'], ..., default=None).replace('/', ''),
    compat_str)]. *)
Definition upload_date_getter (data_dict : gmap pystr pystr) : exn + pystr :=
  match data_dict !! py "date" with
  | None => inl (KeyError (py "date"))
  | Some v =>
      match search match_date v with
      | None => inl AttributeError
      | Some m => inr (filter (fun c => negb (c =? SLASH)) m)
      end
  end.

(** Modelled from the spec: [int_or_none(self._search_regex(r'(\d+)', s, ...,
    default=None))], with [int_or_none] of yt_dlp/utils.py and
    [_search_regex] of the extractor base class (neither under src/):
    [None] stays [None], a string of decimal digits becomes its [int()]. *)
Definition int_or_none (o : option pystr) : option Z := option_map int_of_digits o.

Definition count_of (s : pystr) : option Z := int_or_none (search match_digits s).

(** [DamtomoVideoIE._real_extract], from [video_id = self._match_id(url)] on. *)
Definition DamtomoVideoIE_real_extract (n : net) (video_id : pystr) : M info :=
  '(webpage, handle_url) ← fetch_webpage n (video_page_url video_id);
  if bool_decide (handle_url = SORRY_URL) then raise (ExtractorError RATE_LIMITED_MSG true) else
  if contains SERVER_ERROR_MARKER webpage then raise (ExtractorError SERVER_ERROR_MSG true) else
  let description := search match_description webpage in
  let uploader_id := search match_uploader_id webpage in
  let data_dict := data_dict_of webpage in
  user_name ← dict_get data_dict (py "user_name");
  let data_dict := <[py "user_name" := sub_san user_name]> data_dict in
  title ← percent_format TITLE_FMT data_dict;
  stream_tree ← fetch_xml n (video_xml_url video_id);
  m3u8_url ← try_get (m3u8_getter video_ns stream_tree);
  match m3u8_url with
  | None | Some [] => raise (ExtractorError NO_M3U8_MSG false)
  | Some m3u8_url =>
      uploader ← dict_get data_dict (py "user_name");
      upload_date ← try_get (upload_date_getter data_dict);
      audience ← dict_get data_dict (py "audience");
      nice ← dict_get data_dict (py "nice");
      song_title ← dict_get data_dict (py "song_title");
      song_artist ← dict_get data_dict (py "song_artist");
      mret {| id := video_id;
              title := title;
              uploader_id := uploader_id;
              description := description;
              formats := [{| format_id := py "hls"; url := m3u8_url;
                             ext := py "mp4"; protocol := py "m3u8_native" |}];
              uploader := uploader;
              upload_date := upload_date;
              view_count := count_of audience;
              like_count := count_of nice;
              song_title := song_title;
              song_artist := song_artist |}
  end.

(** [DamtomoRecordIE._real_extract], from [video_id = self._match_id(url)] on. *)
Definition DamtomoRecordIE_real_extract (n : net) (video_id : pystr) : M info :=
  '(webpage, handle_url) ← fetch_webpage n (record_page_url video_id);
  if bool_decide (handle_url = SORRY_URL) then raise (ExtractorError RATE_LIMITED_MSG true) else
  if contains SERVER_ERROR_MARKER webpage then raise (ExtractorError SERVER_ERROR_MSG true) else
  let description := search match_description webpage in
  let uploader_id := search match_uploader_id webpage in
  let data_dict := data_dict_of webpage in
  user_name ← dict_get data_dict (py "user_name");
  let data_dict := <[py "user_name" := sub_san user_name]> data_dict in
  title ← percent_format TITLE_FMT data_dict;
  stream_tree ← fetch_xml n (record_xml_url video_id);
  m3u8_url ← try_get (m3u8_getter record_ns stream_tree);
  match m3u8_url with
  | None | Some [] => raise (ExtractorError NO_M3U8_MSG false)
  | Some m3u8_url =>
      uploader ← dict_get data_dict (py "user_name");
      upload_date ← try_get (upload_date_getter data_dict);
      audience ← dict_get data_dict (py "audience");
      nice ← dict_get data_dict (py "nice");
      song_title ← dict_get data_dict (py "song_title");
      song_artist ← dict_get data_dict (py "song_artist");
      mret {| id := video_id;
              title := title;
              uploader_id := uploader_id;
              description := description;
              formats := [{| format_id := py "hls"; url := m3u8_url;
                             ext := py "mp4"; protocol := py "m3u8_native" |}];
              uploader := uploader;
              upload_date := upload_date;
              view_count := count_of audience;
              like_count := count_of nice;
              song_title := song_title;
              song_artist := song_artist |}
  end.

End Extract.

(** Modelled from the spec: [clean_html] of yt_dlp/utils.py (not under src/),
    which the spec describes as HTML cleaning (tags stripped, entities
    unescaped): here tags [<...>] are removed and surrounding whitespace is
    stripped; entities are kept as they are.  The theorems below hold for
    every [clean_html]; this one only runs the concrete examples. *)
Fixpoint strip_tags (in_tag : bool) (s : pystr) : pystr :=
  match s with
  | [] => []
  | c :: t =>
      if in_tag then strip_tags (negb (c =? 62)) t
      else if c =? LT then strip_tags true t else c :: strip_tags false t
  end.

Definition clean_html_model (s : pystr) : pystr := py_strip (strip_tags false s).

(** ** Concrete pages *)

Definition q : pystr := [QUOTE].

Definition field (tag label content : string) : pystr :=
  py "<" ++ py tag ++ py " class=" ++ q ++ py label ++ q ++ py ">" ++ py content
  ++ py "</" ++ py tag ++ py ">".

(** A recording page in the shape of the second test of [DamtomoRecordIE]. *)
Definition record_page : pystr :=
  py "<html><div id=" ++ q ++ py "public_comment" ++ q ++ py ">
   <p>
     Hello
   </p></div>" ++ PROFILE_HREF ++ py "MzAyMDExNTY" ++ q ++ py ">profile</a>"
  ++ field "p" "user_name" "ＮＡＮＡ  さん"
  ++ field "div" "song_title" "
     イカSUMMER  [良音]"
  ++ field "p" "song_artist" "ORANGE RANGE"
  ++ field "p" "audience" "4 回視聴"
  ++ field "p" "nice" "1"
  ++ field "p" "date" "2021/07/21 12:00"
  ++ py "</html>".

Definition streaming_xml (ns : pystr) (text : option pystr) : xml :=
  Elem ([], py "root") None
    [Elem (ns, py "result") (Some (py "OK")) [];
     Elem ([], py "data") None [Elem (ns, py "streamingUrl") text []]].

Definition one_page_net (page_url : pystr) (page final : pystr) (xml_url : pystr) (tree : xml) : net :=
  {| download_webpage_handle := fun u =>
       if bool_decide (u = page_url) then inr (page, final)
       else inl (ExtractorError (py "HTTP Error 404: Not Found") false);
     download_xml := fun u =>
       if bool_decide (u = xml_url) then inr tree
       else inl (ExtractorError (py "HTTP Error 404: Not Found") false) |}.

Definition RID : pystr := py "27376862".
Definition M3U8 : pystr := py "https://example.com/a.m3u8".

Definition record_net : net :=
  one_page_net (record_page_url RID) record_page (record_page_url RID)
    (record_xml_url RID) (streaming_xml record_ns (Some (py "  " ++ M3U8 ++ py "
"))).

(** The same page without the [date] field. *)
Definition record_page_no_date : pystr :=
  py "<html>" ++ PROFILE_HREF ++ py "MzAyMDExNTY" ++ q ++ py ">profile</a>"
  ++ field "p" "user_name" "ＮＡＮＡ  さん"
  ++ field "div" "song_title" "イカSUMMER [良音]"
  ++ field "p" "song_artist" "ORANGE RANGE"
  ++ field "p" "audience" "4 回視聴"
  ++ field "p" "nice" "1"
  ++ py "</html>".

Definition record_net_no_date : net :=
  one_page_net (record_page_url RID) record_page_no_date (record_page_url RID)
    (record_xml_url RID) (streaming_xml record_ns (Some M3U8)).

(** The same page without the [date], [audience] and [nice] fields. *)
Definition record_page_no_counts : pystr :=
  py "<html>" ++ PROFILE_HREF ++ py "MzAyMDExNTY" ++ q ++ py ">profile</a>"
  ++ field "p" "user_name" "ＮＡＮＡ  さん"
  ++ field "div" "song_title" "イカSUMMER [良音]"
  ++ field "p" "song_artist" "ORANGE RANGE"
  ++ py "</html>".

Definition record_net_no_counts : net :=
  one_page_net (record_page_url RID) record_page_no_counts (record_page_url RID)
    (record_xml_url RID) (streaming_xml record_ns (Some M3U8)).

Definition VID : pystr := py "2414316".

(** A first request redirected to the rate-limit page. *)
Definition sorry_net : net :=
  one_page_net (video_page_url VID) record_page SORRY_URL
    (video_xml_url VID) (streaming_xml video_ns (Some M3U8)).

(** A page carrying the server-error marker. *)
Definition error_page : pystr := py "<html><body>" ++ SERVER_ERROR_MARKER ++ py "</body></html>".

Definition error_net : net :=
  one_page_net (record_page_url RID) error_page (record_page_url RID)
    (record_xml_url RID) (streaming_xml record_ns (Some M3U8)).

(** A manifest document whose [streamingUrl] text is blank. *)
Definition blank_tree : xml := streaming_xml record_ns (Some (py "  
  ")).

Definition blank_net : net :=
  one_page_net (record_page_url RID) record_page (record_page_url RID) (record_xml_url RID) blank_tree.

(** ** Reading the scan of the page

    An occurrence of [<(p|div)\s+class=\x22([^\x22 ]+?)\x22>(.+?)</\1>]
    with the given label and content, as a substring of a page. *)
Definition tag_occurrence (occ label content : pystr) : Prop :=
  exists tag ws,
    (tag = py "p" \/ tag = py "div")
    /\ ws <> [] /\ Forall (fun c => is_space c = true) ws
    /\ label <> [] /\ Forall (fun c => c <> QUOTE /\ c <> SPACE) label
    /\ content <> []
    /\ occ = [LT] ++ tag ++ ws ++ py "class=" ++ [QUOTE] ++ label ++ [QUOTE; 62]
             ++ content ++ py "</" ++ tag ++ py ">".

Definition occurs_in (page label content : pystr) : Prop :=
  exists pre occ post, page = pre ++ occ ++ post /\ tag_occurrence occ label content.

(** The content of the last match with label [k], in scan order. *)
Fixpoint last_content (k : pystr) (ms : list (pystr * pystr)) : option pystr :=
  match ms with
  | [] => None
  | (l, c) :: ms' =>
      match last_content k ms' with
      | Some c' => Some c'
      | None => if bool_decide (l = k) then Some c else None
      end
  end.

(** A [p] field nested in a [div] field. *)
Definition nested_page : pystr :=
  py "<div class=" ++ q ++ py "a" ++ q ++ py "><p class=" ++ q ++ py "b" ++ q ++ py ">x</p></div>".

(** ** One extractor with the URL templates and the namespace as parameters *)

Section Core.

Variable clean_html : pystr -> pystr.

Definition damtomo_real_extract (page_url xml_url : pystr -> pystr) (ns : pystr)
    (n : net) (video_id : pystr) : M info :=
  '(webpage, handle_url) ← fetch_webpage n (page_url video_id);
  if bool_decide (handle_url = SORRY_URL) then raise (ExtractorError RATE_LIMITED_MSG true) else
  if contains SERVER_ERROR_MARKER webpage then raise (ExtractorError SERVER_ERROR_MSG true) else
  let description := search match_description webpage in
  let uploader_id := search match_uploader_id webpage in
  let data_dict := data_dict_of clean_html webpage in
  user_name ← dict_get data_dict (py "user_name");
  let data_dict := <[py "user_name" := sub_san user_name]> data_dict in
  title ← percent_format TITLE_FMT data_dict;
  stream_tree ← fetch_xml n (xml_url video_id);
  m3u8_url ← try_get (m3u8_getter ns stream_tree);
  match m3u8_url with
  | None | Some [] => raise (ExtractorError NO_M3U8_MSG false)
  | Some m3u8_url =>
      uploader ← dict_get data_dict (py "user_name");
      upload_date ← try_get (upload_date_getter data_dict);
      audience ← dict_get data_dict (py "audience");
      nice ← dict_get data_dict (py "nice");
      song_title ← dict_get data_dict (py "song_title");
      song_artist ← dict_get data_dict (py "song_artist");
      mret {| id := video_id;
              title := title;
              uploader_id := uploader_id;
              description := description;
              formats := [{| format_id := py "hls"; url := m3u8_url;
                             ext := py "mp4"; protocol := py "m3u8_native" |}];
              uploader := uploader;
              upload_date := upload_date;
              view_count := count_of audience;
              like_count := count_of nice;
              song_title := song_title;
              song_artist := song_artist |}
  end.

End Core.

Inductive extractor := DamtomoVideoIE | DamtomoRecordIE.

Definition real_extract (ie : extractor) : (pystr -> pystr) -> net -> pystr -> M info :=
  match ie with
  | DamtomoVideoIE => DamtomoVideoIE_real_extract
  | DamtomoRecordIE => DamtomoRecordIE_real_extract
  end.

Definition page_url (ie : extractor) : pystr -> pystr :=
  match ie with DamtomoVideoIE => video_page_url | DamtomoRecordIE => record_page_url end.
Definition xml_url (ie : extractor) : pystr -> pystr :=
  match ie with DamtomoVideoIE => video_xml_url | DamtomoRecordIE => record_xml_url end.
Definition xml_ns (ie : extractor) : pystr :=
  match ie with DamtomoVideoIE => video_ns | DamtomoRecordIE => record_ns end.



(** ** The extraction read as stages

    [prelude] is the pure part between the first download and the second:
    the [user_name] rewrite and the title; [finish] is what follows the
    second download.  [core_run] below shows that a run is these stages. *)

Definition prelude (clean_html : pystr -> pystr) (webpage : pystr)
    : exn + (gmap pystr pystr * pystr) :=
  let data_dict := data_dict_of clean_html webpage in
  match data_dict !! py "user_name" with
  | None => inl (KeyError (py "user_name"))
  | Some user_name =>
      let data_dict := <[py "user_name" := sub_san user_name]> data_dict in
      match data_dict !! py "song_title", data_dict !! py "song_artist" with
      | None, _ => inl (KeyError (py "song_title"))
      | Some _, None => inl (KeyError (py "song_artist"))
      | Some st, Some sa => inr (data_dict, st ++ py "-" ++ sa ++ py "-" ++ sub_san user_name)
      end
  end.

Definition lookup_or_key_error (d : gmap pystr pystr) (k : pystr) : exn + pystr :=
  match d !! k with Some v => inr v | None => inl (KeyError k) end.

Definition finish (ns video_id webpage : pystr) (data_dict : gmap pystr pystr) (title : pystr)
    (stream_tree : xml) : exn + info :=
  match m3u8_getter ns stream_tree with
  | inl _ | inr [] => inl (ExtractorError NO_M3U8_MSG false)
  | inr m3u8_url =>
      match lookup_or_key_error data_dict (py "user_name"),
            lookup_or_key_error data_dict (py "audience"),
            lookup_or_key_error data_dict (py "nice"),
            lookup_or_key_error data_dict (py "song_title"),
            lookup_or_key_error data_dict (py "song_artist") with
      | inl e, _, _, _, _ | inr _, inl e, _, _, _ | inr _, inr _, inl e, _, _
      | inr _, inr _, inr _, inl e, _ | inr _, inr _, inr _, inr _, inl e => inl e
      | inr uploader, inr audience, inr nice, inr song_title, inr song_artist =>
          inr {| id := video_id;
                 title := title;
                 uploader_id := search match_uploader_id webpage;
                 description := search match_description webpage;
                 formats := [{| format_id := py "hls"; url := m3u8_url;
                                ext := py "mp4"; protocol := py "m3u8_native" |}];
                 uploader := uploader;
                 upload_date := match upload_date_getter data_dict with
                                | inr d => Some d | inl _ => None end;
                 view_count := count_of audience;
                 like_count := count_of nice;
                 song_title := song_title;
                 song_artist := song_artist |}
      end
  end.

Definition staged_run (clean_html : pystr -> pystr) (page_url xml_url : pystr -> pystr)
    (ns : pystr) (n : net) (video_id : pystr) : list pystr * (exn + info) :=
  match download_webpage_handle n (page_url video_id) with
  | inl e => ([page_url video_id], inl e)
  | inr (webpage, handle_url) =>
      if bool_decide (handle_url = SORRY_URL) then
        ([page_url video_id], inl (ExtractorError RATE_LIMITED_MSG true))
      else if contains SERVER_ERROR_MARKER webpage then
        ([page_url video_id], inl (ExtractorError SERVER_ERROR_MSG true))
      else match prelude clean_html webpage with
           | inl e => ([page_url video_id], inl e)
           | inr (data_dict, title) =>
               ([page_url video_id; xml_url video_id],
                match download_xml n (xml_url video_id) with
                | inl e => inl e
                | inr stream_tree => finish ns video_id webpage data_dict title stream_tree
                end)
           end
  end.

(** ** The URL patterns

    [_VALID_URL] of each extractor, read by [re.match]: anchored at the start
    of the URL, not at its end. *)

(** A literal piece of a pattern, followed by the rest [k] of the pattern. *)
Definition lit {A} (l : pystr) (k : pystr -> option A) (r : pystr) : option A :=
  if is_prefix l r then k (drop (List.length l) r) else None.

(** [(l)?] followed by [k]: greedy, so first with [l], and without it when
    the rest of the pattern then fails. *)
Definition opt_lit {A} (l : pystr) (k : pystr -> option A) (r : pystr) : option A :=
  match lit l k r with Some a => Some a | None => k r end.

(** [https?://(www\.)?clubdam\.com/app/damtomo/(?:SP/)?] [path] [(?P<id>\d+)],
    giving the group [id]; [path] is the pattern's literal after [(?:SP/)?]. *)
Definition valid_url_matcher (path : pystr) : pystr -> option pystr :=
  lit (py "http") (opt_lit (py "s") (lit (py "://") (opt_lit (py "www.")
    (lit (py "clubdam.com/app/damtomo/") (opt_lit (py "SP/") (lit path match_digits)))))).

Definition VIDEO_URL_PATH : pystr := py "karaokeMovie/StreamingDkm.do?karaokeMovieId=".
Definition RECORD_URL_PATH : pystr := py "karaokePost/StreamingKrk.do?karaokeContributeId=".

(** [re.match(DamtomoVideoIE._VALID_URL, url)] and its group [id]. *)
Definition DamtomoVideoIE_valid_url (url : pystr) : option pystr :=
  valid_url_matcher VIDEO_URL_PATH url.

(** [re.match(DamtomoRecordIE._VALID_URL, url)] and its group [id]. *)
Definition DamtomoRecordIE_valid_url (url : pystr) : option pystr :=
  valid_url_matcher RECORD_URL_PATH url.

Definition valid_url (ie : extractor) : pystr -> option pystr :=
  match ie with
  | DamtomoVideoIE => DamtomoVideoIE_valid_url
  | DamtomoRecordIE => DamtomoRecordIE_valid_url
  end.

(** The part of a matched URL before [path], for each choice of the three
    optional pieces [s], [www.] and [SP/]. *)
Definition url_prefix (s www sp : bool) : pystr :=
  py "http" ++ (if s then py "s" else []) ++ py "://" ++ (if www then py "www." else [])
  ++ py "clubdam.com/app/damtomo/" ++ (if sp then py "SP/" else []).

(** ** Proofs *)

Lemma video_is_core clean_html :
  DamtomoVideoIE_real_extract clean_html
  = damtomo_real_extract clean_html video_page_url video_xml_url video_ns.
Proof. unfold DamtomoVideoIE_real_extract, damtomo_real_extract. reflexivity. Qed.

Lemma record_is_core clean_html :
  DamtomoRecordIE_real_extract clean_html
  = damtomo_real_extract clean_html record_page_url record_xml_url record_ns.
Proof. unfold DamtomoRecordIE_real_extract, damtomo_real_extract. reflexivity. Qed.

Lemma real_extract_core ie clean_html :
  real_extract ie clean_html
  = damtomo_real_extract clean_html (page_url ie) (xml_url ie) (xml_ns ie).
Proof.
  destruct ie; cbv beta iota delta [real_extract page_url xml_url xml_ns].
  - apply video_is_core.
  - apply record_is_core.
Qed.

Lemma dict_get_log d k log : dict_get d k log = (log, lookup_or_key_error d k).
Proof. unfold dict_get, lookup_or_key_error. destruct (d !! k); reflexivity. Qed.

Ltac red_m :=
  cbv beta iota delta [mbind M_bind fetch_webpage fetch_xml raise mret M_ret dict_get try_get
                        percent_format TITLE_FMT lookup_or_key_error].

Lemma core_run clean pu xu ns n vid :
  run (damtomo_real_extract clean pu xu ns n vid) = staged_run clean pu xu ns n vid.
Proof.
  unfold run, damtomo_real_extract, staged_run, prelude, finish.
  red_m.
  destruct (download_webpage_handle n (pu vid)) as [e|[webpage final]]; [reflexivity|].
  destruct (bool_decide _); [reflexivity|].
  destruct (contains _ _); [reflexivity|].
  destruct (data_dict_of clean webpage !! py "user_name"%string) as [un|]; [|reflexivity].
  rewrite !lookup_insert_eq.
  destruct (_ !! py "song_title"%string) as [st|] eqn:Hst; [|reflexivity].
  destruct (_ !! py "song_artist"%string) as [sa|] eqn:Hsa; [|reflexivity].
  cbv iota beta.
  destruct (download_xml n (xu vid)) as [e|tree]; [reflexivity|].
  unfold m3u8_getter.
  destruct (find_desc _ tree) as [e|]; [|reflexivity].
  destruct (elem_text e) as [t|]; [|reflexivity].
  destruct (py_strip t) as [|c t']; [reflexivity|].
  unfold upload_date_getter. rewrite ?lookup_insert_eq. cbv zeta beta iota. rewrite ?Hst, ?Hsa, ?app_nil_r.
  destruct (_ !! py "date"%string) as [d|].
  - destruct (search match_date d); 
    (destruct (_ !! py "audience"%string); [|reflexivity]);
    (destruct (_ !! py "nice"%string); [|reflexivity]); reflexivity.
  - (destruct (_ !! py "audience"%string); [|reflexivity]);
    (destruct (_ !! py "nice"%string); [|reflexivity]); reflexivity.
Qed.

Lemma run_real_extract ie clean n vid :
  run (real_extract ie clean n vid) = staged_run clean (page_url ie) (xml_url ie) (xml_ns ie) n vid.
Proof. rewrite real_extract_core. apply core_run. Qed.

Lemma is_prefix_app p s : is_prefix p (p ++ s) = true.
Proof. induction p as [|a p IH]; simpl; [reflexivity|]. rewrite Z.eqb_refl. exact IH. Qed.

Lemma contains_unfold needle hay :
  contains needle hay
  = is_prefix needle hay || match hay with [] => false | _ :: t => contains needle t end.
Proof. destruct hay; reflexivity. Qed.

Lemma contains_app needle pre post : contains needle (pre ++ needle ++ post) = true.
Proof.
  induction pre as [|c pre IH]; rewrite contains_unfold.
  - cbn [app]. rewrite is_prefix_app. reflexivity.
  - simpl. rewrite IH. apply orb_true_r.
Qed.

(** ** C1: a redirect to the rate-limit page *)

(** C1: whatever the page body, when the final URL of the first request is
    [https://www.clubdam.com/sorry/], both extractors raise the expected
    (user-facing) [ExtractorError] "You are rate-limited. Try again later.",
    having made that single request and nothing else (no XML request). *)
Theorem rate_limited_redirect (clean_html : pystr -> pystr) (ie : extractor) (n : net)
    (video_id webpage : pystr) :
  download_webpage_handle n (page_url ie video_id) = inr (webpage, SORRY_URL) ->
  run (real_extract ie clean_html n video_id)
  = ([page_url ie video_id], inl (ExtractorError RATE_LIMITED_MSG true)).
Proof.
  intros Hdl. rewrite run_real_extract. unfold staged_run. rewrite Hdl.
  rewrite bool_decide_eq_true_2 by reflexivity. reflexivity.
Qed.

(** ** C2: the server-error marker *)

(** C2: when the first request is not redirected to the rate-limit page and
    its body contains [<h2>予期せぬエラーが発生しました。</h2>], both
    extractors raise the expected [ExtractorError] "There is an error on
    server-side. Try again later." after that single request: no other
    request is made and no result is produced. *)
Theorem server_error_marker (clean_html : pystr -> pystr) (ie : extractor) (n : net)
    (video_id webpage handle_url : pystr) :
  download_webpage_handle n (page_url ie video_id) = inr (webpage, handle_url) ->
  handle_url <> SORRY_URL ->
  (exists pre post, webpage = pre ++ SERVER_ERROR_MARKER ++ post) ->
  run (real_extract ie clean_html n video_id)
  = ([page_url ie video_id], inl (ExtractorError SERVER_ERROR_MSG true)).
Proof.
  intros Hdl Hurl (pre & post & ->). rewrite run_real_extract. unfold staged_run. rewrite Hdl.
  rewrite bool_decide_eq_false_2 by exact Hurl. rewrite contains_app. reflexivity.
Qed.

Lemma rate_limited_redirect_witness :
  download_webpage_handle sorry_net (page_url DamtomoVideoIE VID) = inr (record_page, SORRY_URL)
  /\ run (real_extract DamtomoVideoIE clean_html_model sorry_net VID)
     = ([page_url DamtomoVideoIE VID], inl (ExtractorError RATE_LIMITED_MSG true)).
Proof.
  assert (H : download_webpage_handle sorry_net (page_url DamtomoVideoIE VID)
              = inr (record_page, SORRY_URL)) by (vm_compute; reflexivity).
  split; [exact H | exact (rate_limited_redirect clean_html_model DamtomoVideoIE sorry_net VID record_page H)].
Defined.

Lemma server_error_marker_witness :
  download_webpage_handle error_net (page_url DamtomoRecordIE RID)
    = inr (error_page, record_page_url RID)
  /\ record_page_url RID <> SORRY_URL
  /\ run (real_extract DamtomoRecordIE clean_html_model error_net RID)
     = ([page_url DamtomoRecordIE RID], inl (ExtractorError SERVER_ERROR_MSG true)).
Proof.
  assert (H1 : download_webpage_handle error_net (page_url DamtomoRecordIE RID)
               = inr (error_page, record_page_url RID)) by (vm_compute; reflexivity).
  assert (H2 : record_page_url RID <> SORRY_URL) by (intro H; vm_compute in H; congruence).
  assert (H3 : exists pre post, error_page = pre ++ SERVER_ERROR_MARKER ++ post)
    by (exists (py "<html><body>"), (py "</body></html>"); reflexivity).
  split; [exact H1 | split; [exact H2 |]].
  exact (server_error_marker clean_html_model DamtomoRecordIE error_net RID error_page _ H1 H2 H3).
Defined.

(** ** C3: the manifest lookup *)

Lemma page_url_ne_xml_url ie vid : page_url ie vid <> xml_url ie vid.
Proof. destruct ie; intro H; apply (f_equal (take 55)) in H; vm_compute in H; discriminate H. Qed.

(** Once the XML document has been requested, the result is [finish] on it. *)
Lemma run_reaches_xml ie clean n vid log r :
  run (real_extract ie clean n vid) = (log, r) ->
  In (xml_url ie vid) log ->
  exists webpage handle_url data_dict title,
    download_webpage_handle n (page_url ie vid) = inr (webpage, handle_url)
    /\ handle_url <> SORRY_URL
    /\ contains SERVER_ERROR_MARKER webpage = false
    /\ prelude clean webpage = inr (data_dict, title)
    /\ log = [page_url ie vid; xml_url ie vid]
    /\ r = match download_xml n (xml_url ie vid) with
           | inl e => inl e
           | inr tree => finish (xml_ns ie) vid webpage data_dict title tree
           end.
Proof.
  rewrite run_real_extract. unfold staged_run.
  pose proof (page_url_ne_xml_url ie vid) as Hne.
  destruct (download_webpage_handle n (page_url ie vid)) as [e|[webpage handle_url]];
    [intros [= <- _] [H|[]]; destruct (Hne H)|].
  destruct (bool_decide (handle_url = SORRY_URL)) eqn:Hs;
    [intros [= <- _] [H|[]]; destruct (Hne H)|].
  destruct (contains SERVER_ERROR_MARKER webpage) eqn:Hc;
    [intros [= <- _] [H|[]]; destruct (Hne H)|].
  destruct (prelude clean webpage) as [e|[data_dict title]] eqn:Hp;
    [intros [= <- _] [H|[]]; destruct (Hne H)|].
  intros [= <- <-] _.
  exists webpage, handle_url, data_dict, title.
  split; [reflexivity|]. split; [exact (bool_decide_eq_false_1 _ Hs)|].
  split; [exact Hc|]. split; [exact Hp|]. split; reflexivity.
Qed.

(** C3: in every call of either extractor that gets as far as the XML
    request, when the descendant [{ns}streamingUrl] of the document is
    missing, has no text, or has a text that is empty once stripped of
    surrounding whitespace, the call fails with [ExtractorError] "Failed to
    obtain m3u8 URL" (not marked expected), whatever the page gave; when the
    call succeeds, the single format's URL is the element's text stripped of
    surrounding whitespace. *)
Theorem manifest_not_found (clean_html : pystr -> pystr) (ie : extractor) (n : net)
    (video_id : pystr) (tree : xml) (log : list pystr) (r : exn + info) :
  download_xml n (xml_url ie video_id) = inr tree ->
  run (real_extract ie clean_html n video_id) = (log, r) ->
  In (xml_url ie video_id) log ->
  ((find_desc (xml_ns ie, py "streamingUrl") tree = None
    \/ (exists e, find_desc (xml_ns ie, py "streamingUrl") tree = Some e
                  /\ (elem_text e = None
                      \/ exists t, elem_text e = Some t /\ py_strip t = [])))
   -> r = inl (ExtractorError NO_M3U8_MSG false))
  /\ (forall e t res, find_desc (xml_ns ie, py "streamingUrl") tree = Some e ->
        elem_text e = Some t -> r = inr res ->
        formats res = [{| format_id := py "hls"; url := py_strip t;
                          ext := py "mp4"; protocol := py "m3u8_native" |}]).
Proof.
  intros Hx Hrun Hin.
  destruct (run_reaches_xml _ _ _ _ _ _ Hrun Hin)
    as (webpage & handle_url & data_dict & title & _ & _ & _ & _ & _ & ->).
  rewrite Hx. unfold finish, m3u8_getter. split.
  - intros [Hf | (e & Hf & [Ht | (t & Ht & Hs)])]; rewrite Hf; [reflexivity| |];
      rewrite Ht; [reflexivity|]. rewrite Hs. reflexivity.
  - intros e t res Hf Ht. rewrite Hf, Ht.
    destruct (py_strip t) as [|c t']; [discriminate|].
    repeat match goal with
           | |- context [lookup_or_key_error ?d ?k] => destruct (lookup_or_key_error d k)
           end; try discriminate.
    intros [= <-]. reflexivity.
Qed.

Lemma manifest_not_found_witness :
  snd (run (real_extract DamtomoRecordIE clean_html_model blank_net RID))
  = inl (ExtractorError NO_M3U8_MSG false).
Proof.
  assert (Hx : download_xml blank_net (xml_url DamtomoRecordIE RID) = inr blank_tree)
    by (vm_compute; reflexivity).
  assert (Hl : fst (run (real_extract DamtomoRecordIE clean_html_model blank_net RID))
               = [page_url DamtomoRecordIE RID; xml_url DamtomoRecordIE RID])
    by (vm_compute; reflexivity).
  assert (Hin : In (xml_url DamtomoRecordIE RID)
                   (fst (run (real_extract DamtomoRecordIE clean_html_model blank_net RID))))
    by (rewrite Hl; right; left; reflexivity).
  destruct (manifest_not_found clean_html_model DamtomoRecordIE blank_net RID blank_tree _ _
              Hx (surjective_pairing _) Hin) as [H _].
  apply H. right.
  exists (Elem (record_ns, py "streamingUrl") (Some (py "  
  ")) []).
  split; [vm_compute; reflexivity|]. right. exists (py "  
  "). split; [reflexivity | vm_compute; reflexivity].
Defined.

(** ** C4: the FieldMap *)

Lemma is_prefix_spec p s : is_prefix p s = true -> s = p ++ drop (List.length p) s.
Proof.
  revert s; induction p as [|a p IH]; intros s H; [reflexivity|].
  destruct s as [|b s]; [discriminate|]. simpl in H.
  apply andb_prop in H as [Hab H]. apply Z.eqb_eq in Hab as ->.
  simpl. f_equal. apply IH, H.
Qed.

Lemma span_spec p s a b :
  span p s = (a, b) ->
  s = a ++ b /\ Forall (fun c => p c = true) a
  /\ (b = [] \/ exists c b', b = c :: b' /\ p c = false).
Proof.
  revert a b; induction s as [|c s IH]; intros a b H; simpl in H.
  - injection H as <- <-. split; [reflexivity|]. split; [constructor|]. left; reflexivity.
  - destruct (p c) eqn:Hc.
    + destruct (span p s) as [a' b'] eqn:Hs. injection H as <- <-.
      destruct (IH a' b' eq_refl) as (-> & Ha & Hb).
      split; [reflexivity|]. split; [constructor; assumption|]. exact Hb.
    + injection H as <- <-. split; [reflexivity|]. split; [constructor|].
      right. exists c, s. split; [reflexivity|exact Hc].
Qed.

Lemma split_at_close_spec close s a r :
  split_at_close close s = Some (a, r) -> s = a ++ close ++ r.
Proof.
  revert a r; induction s as [|c s IH]; intros a r H; simpl in H.
  - destruct (is_prefix close []) eqn:Hp; [|discriminate].
    injection H as <- <-. simpl. exact (is_prefix_spec _ _ Hp).
  - destruct (is_prefix close (c :: s)) eqn:Hp.
    + injection H as <- <-. exact (is_prefix_spec _ _ Hp).
    + destruct (split_at_close close s) as [[a' r']|] eqn:Hs; [|discriminate].
      injection H as <- <-. simpl. f_equal. apply IH. reflexivity.
Qed.

Lemma match_tag_alt_sound g1 s1 l c rest :
  match_tag_alt g1 s1 = Some (l, c, rest) ->
  exists ws, ws <> [] /\ Forall (fun c => is_space c = true) ws
    /\ l <> [] /\ Forall (fun c => c <> QUOTE /\ c <> SPACE) l /\ c <> []
    /\ s1 = g1 ++ ws ++ py "class=" ++ [QUOTE] ++ l ++ [QUOTE; 62] ++ c ++ py "</" ++ g1
             ++ py ">" ++ rest.
Proof.
  unfold match_tag_alt.
  destruct (is_prefix g1 s1) eqn:H1; [|discriminate].
  destruct (span is_space (drop (List.length g1) s1)) as [ws s3] eqn:Hsp.
  destruct (bool_decide (ws = [])) eqn:Hw; [discriminate|].
  destruct (is_prefix (py "class=" ++ [QUOTE]) s3) eqn:H3; [|discriminate].
  destruct (span (fun c => negb (c =? QUOTE) && negb (c =? SPACE)) (drop 7 s3))
    as [label s6] eqn:Hsp2.
  destruct (bool_decide (label = [])) eqn:Hl; [discriminate|].
  destruct (is_prefix [QUOTE; 62] s6) eqn:H6; [|discriminate].
  destruct (drop 2 s6) as [|c0 t] eqn:Hd; [discriminate|].
  destruct (split_at_close (py "</" ++ g1 ++ py ">") t) as [[content rest']|] eqn:Hc;
    [|discriminate].
  intros [= <- <- <-].
  apply is_prefix_spec in H1. apply is_prefix_spec in H3. apply is_prefix_spec in H6.
  apply split_at_close_spec in Hc.
  destruct (span_spec _ _ _ _ Hsp) as (E1 & Hws & _).
  destruct (span_spec _ _ _ _ Hsp2) as (E2 & Hlab & _).
  exists ws. split; [exact (bool_decide_eq_false_1 _ Hw)|]. split; [exact Hws|].
  split; [exact (bool_decide_eq_false_1 _ Hl)|].
  split.
  { eapply Forall_impl; [exact Hlab|]. intros x Hx. simpl in Hx.
    apply andb_prop in Hx as [Hq Hs]. apply negb_true_iff, Z.eqb_neq in Hq, Hs. tauto. }
  split; [discriminate|].
  change (List.length (py "class=" ++ [QUOTE])) with 7%nat in H3.
  change (List.length [QUOTE; 62]) with 2%nat in H6.
  rewrite H1, E1, H3, E2, H6, Hd, Hc.
  rewrite <- !app_assoc. reflexivity.
Qed.

Lemma match_tag_sound s l c rest :
  match_tag s = Some (l, c, rest) ->
  exists occ, s = occ ++ rest /\ tag_occurrence occ l c.
Proof.
  unfold match_tag. destruct s as [|x s1]; [discriminate|].
  destruct (x =? LT) eqn:Hx; [|discriminate]. apply Z.eqb_eq in Hx as ->.
  assert (Halt : forall g1, (g1 = py "p" \/ g1 = py "div") ->
            match_tag_alt g1 s1 = Some (l, c, rest) ->
            exists occ, LT :: s1 = occ ++ rest /\ tag_occurrence occ l c).
  { intros g1 Hg H.
    destruct (match_tag_alt_sound _ _ _ _ _ H) as (ws & Hw & Hws & Hl & Hlab & Hc & ->).
    exists ([LT] ++ g1 ++ ws ++ py "class=" ++ [QUOTE] ++ l ++ [QUOTE; 62] ++ c ++ py "</"
            ++ g1 ++ py ">").
    split; [rewrite <- !app_assoc; reflexivity|].
    exists g1, ws. repeat (split; [assumption|]). reflexivity. }
  destruct (match_tag_alt (py "p") s1) as [r|] eqn:Hp.
  - intros [= ->]. apply (Halt (py "p")); [left; reflexivity | exact Hp].
  - intros H. apply (Halt (py "div")); [right; reflexivity | exact H].
Qed.

Lemma finditer_fuel_sound fuel s l c :
  In (l, c) (finditer_fuel fuel s) -> occurs_in s l c.
Proof.
  revert s; induction fuel as [|fuel IH]; intros s H; [destruct H|].
  simpl in H. destruct s as [|x t]; [destruct H|].
  destruct (match_tag (x :: t)) as [[[l' c'] rest]|] eqn:Hm.
  - destruct (match_tag_sound _ _ _ _ Hm) as (occ & Es & Hocc).
    destruct H as [[= <- <-] | H].
    + exists [], occ, rest. split; [exact Es | exact Hocc].
    + destruct (IH rest H) as (pre & occ' & post & -> & Hocc').
      exists (occ ++ pre), occ', post. split; [rewrite Es, <- !app_assoc; reflexivity | exact Hocc'].
  - destruct (IH t H) as (pre & occ & post & -> & Hocc).
    exists (x :: pre), occ, post. split; [reflexivity | exact Hocc].
Qed.

Lemma scan_lookup (clean_html : pystr -> pystr) (ms : list (pystr * pystr))
    (m : gmap pystr pystr) (k : pystr) :
  foldl (fun d '(label, content) => <[label := clean_html content]> d) m ms !! k
  = match last_content k ms with Some c => Some (clean_html c) | None => m !! k end.
Proof.
  revert m; induction ms as [|[l c] ms IH]; intros m; [reflexivity|].
  simpl. rewrite IH. destruct (last_content k ms) as [c'|]; [reflexivity|].
  destruct (decide (l = k)) as [->|Hne].
  - rewrite bool_decide_eq_true_2 by reflexivity. apply lookup_insert_eq.
  - rewrite bool_decide_eq_false_2 by exact Hne. apply lookup_insert_ne. exact Hne.
Qed.

Lemma data_dict_lookup (clean_html : pystr -> pystr) (webpage k : pystr) :
  data_dict_of clean_html webpage !! k
  = match last_content k (finditer webpage) with
    | None => None
    | Some content =>
        if bool_decide (clean_html content = []) then None else Some (sub_ws (clean_html content))
    end.
Proof.
  unfold data_dict_of, data_dict_scan.
  rewrite lookup_fmap, map_lookup_filter, scan_lookup, lookup_empty.
  destruct (last_content k (finditer webpage)) as [c|]; [|reflexivity].
  simpl. destruct (decide (clean_html c = [])) as [E|E].
  - rewrite bool_decide_eq_true_2 by exact E. rewrite option_guard_False; [reflexivity|].
    simpl. intros H. exact (H E).
  - rewrite bool_decide_eq_false_2 by exact E. rewrite option_guard_True; [reflexivity|].
    exact E.
Qed.

Lemma sub_ws_aux_ws (w v : pystr) :
  Forall (fun c => is_space c = true) w -> sub_ws_aux true (w ++ v) = sub_ws_aux true v.
Proof.
  induction 1 as [|x w Hx Hw IH]; [reflexivity|]. simpl. rewrite Hx. exact IH.
Qed.

Lemma sub_ws_aux_word (v : pystr) :
  (v = [] \/ exists c v', v = c :: v' /\ is_space c = false) ->
  sub_ws_aux true v = sub_ws_aux false v.
Proof. intros [-> | (c & v' & -> & Hc)]; [reflexivity|]. simpl. rewrite Hc. reflexivity. Qed.

(** C4: the scan is [re.finditer]: a left-to-right, non-overlapping search in
    which each match is a real occurrence of the pattern in the page; the
    FieldMap's entry for a label comes from the last match with that label:
    its content cleaned by [clean_html], absent when that cleaned value is
    empty, and otherwise the cleaned value with every maximal run of
    whitespace replaced by one space (the three equations of [sub_ws]). *)
Theorem field_map_scan (clean_html : pystr -> pystr) (webpage : pystr) :
  (forall label content, In (label, content) (finditer webpage) -> occurs_in webpage label content)
  /\ (forall k, data_dict_of clean_html webpage !! k
        = match last_content k (finditer webpage) with
          | None => None
          | Some content =>
              if bool_decide (clean_html content = []) then None
              else Some (sub_ws (clean_html content))
          end)
  /\ sub_ws [] = []
  /\ (forall c v, is_space c = false -> sub_ws (c :: v) = c :: sub_ws v)
  /\ (forall w v, w <> [] -> Forall (fun c => is_space c = true) w ->
        (v = [] \/ exists c v', v = c :: v' /\ is_space c = false) ->
        sub_ws (w ++ v) = SPACE :: sub_ws v).
Proof.
  split; [intros l c; apply finditer_fuel_sound|].
  split; [intros k; apply data_dict_lookup|].
  split; [reflexivity|].
  split; [intros c v Hc; unfold sub_ws; simpl; rewrite Hc; reflexivity|].
  intros [|x w] v Hne Hw Hv; [contradiction|].
  inversion Hw as [|? ? Hx Hw']; subst.
  unfold sub_ws. simpl. rewrite Hx. f_equal.
  rewrite sub_ws_aux_ws by exact Hw'. apply sub_ws_aux_word, Hv.
Qed.

(** C4, as stated, fails: [<p class="b">x</p>] occurs in [nested_page], its
    cleaned content is not empty and no other match has the label [b], yet
    the FieldMap has no entry [b]: the scan resumed after the enclosing
    [div] match, which swallowed it. *)
Lemma field_map_nested_counterexample :
  occurs_in nested_page (py "b") (py "x")
  /\ clean_html_model (py "x") = py "x"
  /\ finditer nested_page = [(py "a", py "<p class=" ++ q ++ py "b" ++ q ++ py ">x</p>")]
  /\ data_dict_of clean_html_model nested_page !! py "b" = None.
Proof.
  split.
  { exists (py "<div class=" ++ q ++ py "a" ++ q ++ py ">"),
           (py "<p class=" ++ q ++ py "b" ++ q ++ py ">x</p>"), (py "</div>").
    split; [reflexivity|].
    exists (py "p"), [SPACE].
    split; [left; reflexivity|]. split; [discriminate|]. split; [repeat constructor|].
    split; [discriminate|]. split; [repeat constructor; discriminate|].
    split; [discriminate|]. reflexivity. }
  split; [reflexivity|]. split; vm_compute; reflexivity.
Qed.

Lemma field_map_scan_witness :
  In (py "a", py "<p class=" ++ q ++ py "b" ++ q ++ py ">x</p>") (finditer nested_page)
  /\ occurs_in nested_page (py "a") (py "<p class=" ++ q ++ py "b" ++ q ++ py ">x</p>").
Proof.
  split.
  - vm_compute. left. reflexivity.
  - apply (proj1 (field_map_scan clean_html_model nested_page)).
    vm_compute. left. reflexivity.
Defined.

Lemma ws_star_dollar_iff (r : pystr) :
  ws_star_dollar r = true <-> Forall (fun c => is_space c = true) r.
Proof.
  induction r as [|c r IH]; simpl.
  - split; [constructor|reflexivity].
  - split.
    + intros H. apply orb_true_iff in H as [H|H].
      * destruct r; [|discriminate]. apply Z.eqb_eq in H. subst. repeat constructor.
      * apply andb_true_iff in H as [Hc Hr]. constructor; [exact Hc|apply IH, Hr].
    + intros H. inversion H as [|? ? Hc Hr]; subst.
      apply orb_true_iff. right. apply andb_true_iff. split; [exact Hc|apply IH, Hr].
Qed.

Lemma ws_star_san_dollar_iff (r : pystr) :
  ws_star_san_dollar r = true <->
  exists w1 w2, Forall (fun c => is_space c = true) w1
    /\ Forall (fun c => is_space c = true) w2 /\ r = w1 ++ SAN ++ w2.
Proof.
  induction r as [|c r IH].
  - split; [discriminate|]. intros (w1 & w2 & _ & _ & H).
    destruct w1; discriminate.
  - split.
    + intros H. apply orb_true_iff in H as [H|H].
      * apply andb_true_iff in H as [Hp Hd].
        apply is_prefix_spec in Hp.
        apply ws_star_dollar_iff in Hd.
        exists [], (drop 2 (c :: r)). split; [constructor|].
        split; [exact Hd|exact Hp].
      * apply andb_true_iff in H as [Hc Hr].
        apply IH in Hr as (w1 & w2 & H1 & H2 & ->).
        exists (c :: w1), w2. split; [constructor; assumption|]. split; [exact H2|reflexivity].
    + intros (w1 & w2 & H1 & H2 & H). destruct w1 as [|x w1].
      * apply orb_true_iff. left. apply andb_true_iff. rewrite H. split.
        -- exact (is_prefix_app SAN w2).
        -- change (drop 2 ([] ++ SAN ++ w2)) with (drop 2 (SAN ++ w2)).
           rewrite drop_app_length' by reflexivity.
           apply ws_star_dollar_iff. exact H2.
      * injection H as <- Hr. inversion H1 as [|? ? Hx Hw1]; subst.
        apply orb_true_iff. right. apply andb_true_iff. split; [exact Hx|].
        apply IH. exists w1, w2. split; [exact Hw1|]. split; [exact H2|reflexivity].
Qed.

Lemma ws_prefix_unique (a b l1 l2 : pystr) (x y : Z) :
  Forall (fun c => is_space c = true) a -> Forall (fun c => is_space c = true) b ->
  is_space x = false -> is_space y = false ->
  a ++ x :: l1 = b ++ y :: l2 -> l1 = l2.
Proof.
  revert b; induction a as [|z a IH]; intros [|z' b] Ha Hb Hx Hy E; simpl in E.
  - injection E as _ E. exact E.
  - injection E as -> _. inversion Hb; congruence.
  - injection E as <- _. inversion Ha; congruence.
  - injection E as _ E. inversion Ha; inversion Hb; subst. eapply IH; eassumption.
Qed.

Lemma sub_san_eq (s : pystr) :
  sub_san s = if ws_star_san_dollar s then [] else match s with [] => [] | c :: t => c :: sub_san t end.
Proof. destruct s; reflexivity. Qed.

Lemma SAN_code_points : SAN = [12373; 12435].
Proof. reflexivity. Qed.

Lemma san_not_earlier (c : Z) (t w1 w2 : pystr) :
  (forall t0 x, c :: t = t0 ++ [x] -> is_space x = false) ->
  Forall (fun c => is_space c = true) w1 -> Forall (fun c => is_space c = true) w2 ->
  ws_star_san_dollar ((c :: t) ++ w1 ++ SAN ++ w2) = false.
Proof.
  intros Hlast H1 H2.
  destruct (ws_star_san_dollar _) eqn:E; [|reflexivity]. exfalso.
  apply ws_star_san_dollar_iff in E as (u1 & u2 & Hu1 & Hu2 & E).
  rewrite SAN_code_points in E.
  apply (f_equal (@rev Z)) in E. rewrite !rev_app_distr in E. simpl in E.
  rewrite <- !app_assoc in E. simpl in E.
  apply ws_prefix_unique in E;
    [| apply Forall_rev; assumption | apply Forall_rev; assumption | reflexivity | reflexivity].
  injection E as E.
  assert (Hall : Forall (fun c => is_space c = true) (rev (c :: t))).
  { apply Forall_rev in Hu1. rewrite <- E in Hu1. apply Forall_app in Hu1 as [_ Hu1].
    simpl. exact Hu1. }
  apply Forall_rev in Hall. rewrite rev_involutive in Hall.
  destruct (exists_last (l := c :: t)) as (t0 & x & Hx); [discriminate|].
  rewrite Hx in Hall. apply Forall_app in Hall as [_ Hall]. inversion Hall as [|? ? Hxs]; subst.
  rewrite (Hlast t0 x Hx) in Hxs. discriminate.
Qed.

Lemma sub_san_strip (t w1 w2 : pystr) :
  (forall t0 x, t = t0 ++ [x] -> is_space x = false) ->
  Forall (fun c => is_space c = true) w1 -> Forall (fun c => is_space c = true) w2 ->
  sub_san (t ++ w1 ++ SAN ++ w2) = t.
Proof.
  induction t as [|c t IH]; intros Hlast H1 H2.
  - rewrite sub_san_eq.
    assert (E : ws_star_san_dollar ([] ++ w1 ++ SAN ++ w2) = true).
    { apply ws_star_san_dollar_iff. exists w1, w2. split; [exact H1|]. split; [exact H2|reflexivity]. }
    rewrite E. reflexivity.
  - rewrite sub_san_eq, san_not_earlier by assumption.
    change ((c :: t) ++ w1 ++ SAN ++ w2) with (c :: (t ++ w1 ++ SAN ++ w2)).
    cbv iota beta. f_equal. apply IH; [|assumption|assumption].
    intros t0 x Ht. apply (Hlast (c :: t0) x). rewrite Ht. reflexivity.
Qed.

Lemma sub_san_keep (s : pystr) :
  (forall t w, Forall (fun c => is_space c = true) w -> s <> t ++ SAN ++ w) -> sub_san s = s.
Proof.
  induction s as [|c s IH]; intros H; [reflexivity|].
  rewrite sub_san_eq.
  destruct (ws_star_san_dollar (c :: s)) eqn:E.
  - apply ws_star_san_dollar_iff in E as (w1 & w2 & _ & H2 & E).
    destruct (H w1 w2 H2 E).
  - f_equal. apply IH. intros t w Hw Es. apply (H (c :: t) w Hw). rewrite Es. reflexivity.
Qed.

(** C5: [re.sub] of [\s*さん\s*$] on the user name removes a final [さん]
    together with all the whitespace before it and all the whitespace after
    it up to the end of the string; a name that does not end in [さん]
    followed only by whitespace is left as it is.  In particular
    [箱の「中の人」さん] becomes [箱の「中の人」] and [ＮＡＮＡ] stays. *)
Theorem user_name_suffix_strip :
  (forall t w1 w2, (forall t0 x, t = t0 ++ [x] -> is_space x = false) ->
     Forall (fun c => is_space c = true) w1 -> Forall (fun c => is_space c = true) w2 ->
     sub_san (t ++ w1 ++ SAN ++ w2) = t)
  /\ (forall s, (forall t w, Forall (fun c => is_space c = true) w -> s <> t ++ SAN ++ w) ->
     sub_san s = s)
  /\ sub_san (py "箱の「中の人」さん") = py "箱の「中の人」"
  /\ sub_san (py "ＮＡＮＡ") = py "ＮＡＮＡ".
Proof.
  split; [exact sub_san_strip|].
  split; [exact sub_san_keep|].
  split; vm_compute; reflexivity.
Qed.

Lemma user_name_suffix_strip_witness :
  sub_san (py "ＮＡＮＡ" ++ [12288; SPACE] ++ SAN ++ [NEWLINE]) = py "ＮＡＮＡ"
  /\ sub_san (py "ＮＡＮＡ") = py "ＮＡＮＡ".
Proof.
  split.
  - apply (proj1 user_name_suffix_strip).
    + intros t0 x Ht. apply (f_equal (@rev Z)) in Ht. rewrite rev_app_distr in Ht.
      vm_compute in Ht. injection Ht as <- _. reflexivity.
    + repeat constructor.
    + repeat constructor.
  - apply (proj1 (proj2 user_name_suffix_strip)).
    intros t w _ E.
    assert (Hin : In 12373 (py "ＮＡＮＡ")).
    { rewrite E. apply in_or_app. right. apply in_or_app. left.
      rewrite SAN_code_points. left. reflexivity. }
    vm_compute in Hin.
    repeat (destruct Hin as [Hin|Hin]; [discriminate Hin|]). exact Hin.
Defined.

(** C5, as stated, fails: the pattern's trailing [\s*] also removes the
    whitespace after [さん], so [ＮＡＮＡさん ] (ending in a space, not in
    [さん]) is changed to [ＮＡＮＡ]. *)
Lemma user_name_trailing_space_counterexample :
  sub_san (py "ＮＡＮＡさん ") = py "ＮＡＮＡ"
  /\ ~ (exists t, py "ＮＡＮＡさん " = t ++ SAN).
Proof.
  split; [vm_compute; reflexivity|].
  intros [t E]. apply (f_equal (fun l => head (rev l))) in E.
  rewrite rev_app_distr, SAN_code_points in E. vm_compute in E. discriminate E.
Qed.

(** ** The stages of a successful run *)

Ltac key_neq := let H := fresh in intros H; vm_compute in H; discriminate H.

Lemma staged_success clean pu xu ns n vid log res :
  staged_run clean pu xu ns n vid = (log, inr res) ->
  exists webpage handle_url data_dict title tree,
    download_webpage_handle n (pu vid) = inr (webpage, handle_url)
    /\ handle_url <> SORRY_URL
    /\ contains SERVER_ERROR_MARKER webpage = false
    /\ prelude clean webpage = inr (data_dict, title)
    /\ download_xml n (xu vid) = inr tree
    /\ finish ns vid webpage data_dict title tree = inr res
    /\ log = [pu vid; xu vid].
Proof.
  unfold staged_run. intros H.
  destruct (download_webpage_handle n (pu vid)) as [e|[webpage h]]; [discriminate|].
  destruct (decide (h = SORRY_URL)) as [Hs|Hs].
  { rewrite bool_decide_eq_true_2 in H by exact Hs. discriminate. }
  rewrite bool_decide_eq_false_2 in H by exact Hs.
  destruct (contains SERVER_ERROR_MARKER webpage) eqn:Hc; [discriminate|].
  destruct (prelude clean webpage) as [e|[d t]] eqn:Hp; [discriminate|].
  destruct (download_xml n (xu vid)) as [e|tree] eqn:Hx; injection H as <- Hr; [discriminate|].
  exists webpage, h, d, t, tree. repeat split; assumption.
Qed.

Lemma prelude_ok clean webpage d t :
  prelude clean webpage = inr (d, t) ->
  exists un st sa,
    data_dict_of clean webpage !! py "user_name" = Some un
    /\ data_dict_of clean webpage !! py "song_title" = Some st
    /\ data_dict_of clean webpage !! py "song_artist" = Some sa
    /\ d = <[py "user_name" := sub_san un]> (data_dict_of clean webpage)
    /\ t = st ++ py "-" ++ sa ++ py "-" ++ sub_san un.
Proof.
  unfold prelude. intros H.
  destruct (data_dict_of clean webpage !! py "user_name"%string) as [un|] eqn:Hu; [|discriminate].
  rewrite !lookup_insert_ne in H by key_neq.
  destruct (data_dict_of clean webpage !! py "song_title"%string) as [st|] eqn:Hst; [|discriminate].
  destruct (data_dict_of clean webpage !! py "song_artist"%string) as [sa|] eqn:Hsa; [|discriminate].
  injection H as <- <-. exists un, st, sa. repeat split; assumption.
Qed.

Lemma finish_ok ns vid webpage d t tree res :
  finish ns vid webpage d t tree = inr res ->
  exists m3u8 un a ni st sa,
    m3u8_getter ns tree = inr m3u8 /\ m3u8 <> []
    /\ d !! py "user_name" = Some un /\ d !! py "audience" = Some a
    /\ d !! py "nice" = Some ni /\ d !! py "song_title" = Some st
    /\ d !! py "song_artist" = Some sa
    /\ res = {| id := vid;
                title := t;
                uploader_id := search match_uploader_id webpage;
                description := search match_description webpage;
                formats := [{| format_id := py "hls"; url := m3u8;
                               ext := py "mp4"; protocol := py "m3u8_native" |}];
                uploader := un;
                upload_date := match upload_date_getter d with
                               | inr x => Some x | inl _ => None end;
                view_count := count_of a;
                like_count := count_of ni;
                song_title := st;
                song_artist := sa |}.
Proof.
  unfold finish, lookup_or_key_error. intros H.
  destruct (m3u8_getter ns tree) as [e|[|c m]] eqn:Hm; [discriminate|discriminate|].
  destruct (d !! py "user_name"%string) as [un|]; [|discriminate].
  destruct (d !! py "audience"%string) as [a|]; [|discriminate].
  destruct (d !! py "nice"%string) as [ni|]; [|discriminate].
  destruct (d !! py "song_title"%string) as [st|]; [|discriminate].
  destruct (d !! py "song_artist"%string) as [sa|]; [|discriminate].
  injection H as <-. exists (c :: m), un, a, ni, st, sa.
  split; [reflexivity|]. split; [discriminate|]. repeat split.
Qed.

Lemma run_success clean ie n vid log res :
  run (real_extract ie clean n vid) = (log, inr res) ->
  exists webpage handle_url un st sa tree m3u8 a ni,
    download_webpage_handle n (page_url ie vid) = inr (webpage, handle_url)
    /\ handle_url <> SORRY_URL
    /\ contains SERVER_ERROR_MARKER webpage = false
    /\ download_xml n (xml_url ie vid) = inr tree
    /\ log = [page_url ie vid; xml_url ie vid]
    /\ data_dict_of clean webpage !! py "user_name" = Some un
    /\ data_dict_of clean webpage !! py "song_title" = Some st
    /\ data_dict_of clean webpage !! py "song_artist" = Some sa
    /\ data_dict_of clean webpage !! py "audience" = Some a
    /\ data_dict_of clean webpage !! py "nice" = Some ni
    /\ m3u8_getter (xml_ns ie) tree = inr m3u8 /\ m3u8 <> []
    /\ res = {| id := vid;
                title := st ++ py "-" ++ sa ++ py "-" ++ sub_san un;
                uploader_id := search match_uploader_id webpage;
                description := search match_description webpage;
                formats := [{| format_id := py "hls"; url := m3u8;
                               ext := py "mp4"; protocol := py "m3u8_native" |}];
                uploader := sub_san un;
                upload_date :=
                  match upload_date_getter (data_dict_of clean webpage) with
                  | inr x => Some x | inl _ => None end;
                view_count := count_of a;
                like_count := count_of ni;
                song_title := st;
                song_artist := sa |}.
Proof.
  rewrite run_real_extract. intros H.
  apply staged_success in H as (webpage & h & d & t & tree & Hdl & Hs & Hc & Hp & Hx & Hf & Hlog).
  apply prelude_ok in Hp as (un & st & sa & Hu & Hst & Hsa & -> & ->).
  apply finish_ok in Hf as (m3u8 & un' & a & ni & st' & sa' & Hm & Hne & Hu' & Ha & Hn & Hst' & Hsa' & ->).
  rewrite lookup_insert_eq in Hu'. injection Hu' as <-.
  rewrite lookup_insert_ne in Ha, Hn, Hst', Hsa' by key_neq.
  rewrite Hst in Hst'. injection Hst' as <-. rewrite Hsa in Hsa'. injection Hsa' as <-.
  assert (Hdate : upload_date_getter (<[py "user_name" := sub_san un]> (data_dict_of clean webpage))
                  = upload_date_getter (data_dict_of clean webpage)).
  { unfold upload_date_getter. rewrite lookup_insert_ne by key_neq. reflexivity. }
  rewrite Hdate.
  exists webpage, h, un, st, sa, tree, m3u8, a, ni. repeat split; assumption.
Qed.

(** ** C6: the title *)

(** C6: the title of every result is [song_title], [song_artist] and the
    user name with its [さん] suffix removed, as found in the FieldMap,
    joined by [-]; on the recording page [record_page] (the shape of the
    first test of [DamtomoRecordIE]) the title is
    [イカSUMMER [良音]-ORANGE RANGE-ＮＡＮＡ]. *)
Theorem title_interpolation :
  (forall clean_html ie n video_id log res,
     run (real_extract ie clean_html n video_id) = (log, inr res) ->
     exists webpage handle_url user_name song_title song_artist,
       download_webpage_handle n (page_url ie video_id) = inr (webpage, handle_url)
       /\ data_dict_of clean_html webpage !! py "user_name" = Some user_name
       /\ data_dict_of clean_html webpage !! py "song_title" = Some song_title
       /\ data_dict_of clean_html webpage !! py "song_artist" = Some song_artist
       /\ title res = song_title ++ py "-" ++ song_artist ++ py "-" ++ sub_san user_name)
  /\ match snd (run (real_extract DamtomoRecordIE clean_html_model record_net RID)) with
     | inr res => title res = py "イカSUMMER [良音]-ORANGE RANGE-ＮＡＮＡ"
     | inl _ => False
     end.
Proof.
  split.
  - intros clean ie n vid log res H.
    apply run_success in H
      as (webpage & h & un & st & sa & tree & m3u8 & a & ni & Hdl & _ & _ & _ & _
          & Hu & Hst & Hsa & _ & _ & _ & _ & ->).
    exists webpage, h, un, st, sa. repeat split; assumption.
  - vm_compute. reflexivity.
Qed.

Lemma title_interpolation_witness :
  match snd (run (real_extract DamtomoRecordIE clean_html_model record_net RID)) with
  | inr res =>
      exists webpage handle_url user_name song_title song_artist,
        download_webpage_handle record_net (page_url DamtomoRecordIE RID) = inr (webpage, handle_url)
        /\ data_dict_of clean_html_model webpage !! py "user_name" = Some user_name
        /\ data_dict_of clean_html_model webpage !! py "song_title" = Some song_title
        /\ data_dict_of clean_html_model webpage !! py "song_artist" = Some song_artist
        /\ title res = song_title ++ py "-" ++ song_artist ++ py "-" ++ sub_san user_name
  | inl _ => False
  end.
Proof.
  destruct (run (real_extract DamtomoRecordIE clean_html_model record_net RID)) as [log r] eqn:E.
  destruct r as [e|res]; simpl.
  - vm_compute in E. discriminate E.
  - exact (proj1 title_interpolation clean_html_model DamtomoRecordIE record_net RID log res E).
Defined.

(** ** C7: the upload date *)

Lemma search_unfold {A} (mt : pystr -> option A) (s : pystr) :
  search mt s = match mt s with
                | Some a => Some a
                | None => match s with [] => None | _ :: t => search mt t end
                end.
Proof. destruct s; reflexivity. Qed.

Lemma date_shaped_length (m : pystr) : date_shaped m = true -> List.length m = 10%nat.
Proof.
  intros H. do 10 (destruct m as [|? m]; [discriminate H|]).
  destruct m; [reflexivity|discriminate H].
Qed.

Lemma search_date_found (pre m post : pystr) :
  date_shaped m = true ->
  (forall pre' m' post', pre ++ m ++ post = pre' ++ m' ++ post' -> date_shaped m' = true ->
     (List.length pre <= List.length pre')%nat) ->
  search match_date (pre ++ m ++ post) = Some m.
Proof.
  revert m post; induction pre as [|c pre IH]; intros m post Hm Hleft.
  - rewrite search_unfold. unfold match_date. cbn [app].
    rewrite take_app_length' by (symmetry; apply date_shaped_length, Hm).
    rewrite Hm. reflexivity.
  - rewrite search_unfold. unfold match_date at 1.
    destruct (date_shaped (take 10 ((c :: pre) ++ m ++ post))) eqn:E.
    + exfalso.
      specialize (Hleft [] _ _ (eq_sym (take_drop 10 ((c :: pre) ++ m ++ post))) E).
      simpl in Hleft. lia.
    + change ((c :: pre) ++ m ++ post) with (c :: (pre ++ m ++ post)). cbv iota.
      apply IH; [exact Hm|]. intros pre' m' post' Ee Hm'.
      specialize (Hleft (c :: pre') m' post'). simpl in Hleft.
      assert (Hl : (S (List.length pre) <= S (List.length pre'))%nat).
      { apply Hleft; [rewrite Ee; reflexivity|exact Hm']. }
      lia.
Qed.

Lemma search_date_none (v : pystr) :
  (forall pre m post, v = pre ++ m ++ post -> date_shaped m = false) ->
  search match_date v = None.
Proof.
  induction v as [|c v IH]; intros H; [reflexivity|].
  rewrite search_unfold. unfold match_date at 1.
  rewrite (H [] (take 10 (c :: v)) (drop 10 (c :: v))) by (symmetry; apply take_drop).
  apply IH. intros pre m post E. apply (H (c :: pre) m post). rewrite E. reflexivity.
Qed.

(** C7: when the FieldMap has a [date] value, the upload date of a result is
    the leftmost substring of that value shaped [\d\d\d\d/\d\d/\d\d] with its
    slashes removed, and absent when there is no such substring; in that case
    the [try_get] of the upload date yields [None] without raising.  The
    value [2021/07/21 12:00] gives [20210721]. *)
Theorem upload_date_reformat :
  (forall clean_html ie n video_id log res webpage handle_url v,
     run (real_extract ie clean_html n video_id) = (log, inr res) ->
     download_webpage_handle n (page_url ie video_id) = inr (webpage, handle_url) ->
     data_dict_of clean_html webpage !! py "date" = Some v ->
     (forall pre m post, v = pre ++ m ++ post -> date_shaped m = true ->
        (forall pre' m' post', v = pre' ++ m' ++ post' -> date_shaped m' = true ->
           (List.length pre <= List.length pre')%nat) ->
        upload_date res = Some (filter (fun c => negb (c =? SLASH)) m))
     /\ ((forall pre m post, v = pre ++ m ++ post -> date_shaped m = false) ->
         upload_date res = None))
  /\ (forall (d : gmap pystr pystr) v, d !! py "date" = Some v ->
        (forall pre m post, v = pre ++ m ++ post -> date_shaped m = false) ->
        run (try_get (upload_date_getter d)) = ([], inr None))
  /\ run (try_get (upload_date_getter {[py "date" := py "2021/07/21 12:00"]}))
     = ([], inr (Some (py "20210721"))).
Proof.
  split; [|split].
  - intros clean ie n vid log res webpage h v H Hdl Hv.
    apply run_success in H
      as (webpage' & h' & un & st & sa & tree & m3u8 & a & ni & Hdl' & _ & _ & _ & _
          & _ & _ & _ & _ & _ & _ & _ & ->).
    rewrite Hdl in Hdl'. injection Hdl' as <- _.
    cbn [upload_date]. unfold upload_date_getter. rewrite Hv. split.
    + intros pre m post -> Hm Hleft. rewrite search_date_found; [reflexivity|exact Hm|exact Hleft].
    + intros Hnone. rewrite search_date_none by exact Hnone. reflexivity.
  - intros d v Hv Hnone. unfold run, try_get, upload_date_getter. rewrite Hv.
    rewrite search_date_none by exact Hnone. reflexivity.
  - vm_compute. reflexivity.
Qed.

Lemma upload_date_reformat_witness :
  match snd (run (real_extract DamtomoRecordIE clean_html_model record_net RID)) with
  | inr res => upload_date res = Some (py "20210721")
  | inl _ => False
  end.
Proof.
  destruct (run (real_extract DamtomoRecordIE clean_html_model record_net RID)) as [log r] eqn:E.
  destruct r as [e|res]; simpl.
  - vm_compute in E. discriminate E.
  - assert (Hdl : download_webpage_handle record_net (page_url DamtomoRecordIE RID)
                  = inr (record_page, record_page_url RID)) by (vm_compute; reflexivity).
    assert (Hv : data_dict_of clean_html_model record_page !! py "date"
                 = Some (py "2021/07/21 12:00")) by (vm_compute; reflexivity).
    destruct (proj1 upload_date_reformat clean_html_model DamtomoRecordIE record_net RID log res
                record_page (record_page_url RID) _ E Hdl Hv) as [Hfound _].
    rewrite (Hfound [] (py "2021/07/21") (py " 12:00")).
    + vm_compute. reflexivity.
    + vm_compute. reflexivity.
    + vm_compute. reflexivity.
    + intros pre' m' post' _ _. apply Nat.le_0_l.
Defined.

(** ** C8: view and like counts *)

Lemma span_app (p : Z -> bool) (r post : pystr) :
  Forall (fun c => p c = true) r ->
  (post = [] \/ exists c post', post = c :: post' /\ p c = false) ->
  span p (r ++ post) = (r, post).
Proof.
  induction 1 as [|c r Hc Hr IH]; intros Hpost.
  - destruct Hpost as [-> | (c & post' & -> & Hc)]; [reflexivity|].
    simpl. rewrite Hc. reflexivity.
  - simpl. rewrite Hc, IH by exact Hpost. reflexivity.
Qed.

Lemma search_digits_found (pre r post : pystr) :
  Forall (fun c => is_digit c = false) pre -> r <> [] -> Forall (fun c => is_digit c = true) r ->
  (post = [] \/ exists c post', post = c :: post' /\ is_digit c = false) ->
  search match_digits (pre ++ r ++ post) = Some r.
Proof.
  intros Hpre Hr Hd Hpost. induction Hpre as [|c pre Hc Hpre IH].
  - rewrite search_unfold. unfold match_digits. cbn [app].
    rewrite span_app by assumption. rewrite bool_decide_eq_false_2 by exact Hr. reflexivity.
  - rewrite search_unfold. unfold match_digits at 1.
    change ((c :: pre) ++ r ++ post) with (c :: (pre ++ r ++ post)).
    cbn [span]. rewrite Hc. exact IH.
Qed.

Lemma search_digits_none (s : pystr) :
  Forall (fun c => is_digit c = false) s -> search match_digits s = None.
Proof.
  induction 1 as [|c s Hc Hs IH]; [reflexivity|].
  rewrite search_unfold. unfold match_digits at 1. cbn [span]. rewrite Hc. exact IH.
Qed.

(** C8: the view count (like count) of a result is read from the
    FieldMap's [audience] ([nice]) value: the first maximal run of decimal
    digits in it, as an integer, and absent when the value has no digit.
    [4 回視聴] gives 4 and [再生無し] gives nothing. *)
Theorem counts_from_digits :
  (forall clean_html ie n video_id log res webpage handle_url,
     run (real_extract ie clean_html n video_id) = (log, inr res) ->
     download_webpage_handle n (page_url ie video_id) = inr (webpage, handle_url) ->
     exists audience nice,
       data_dict_of clean_html webpage !! py "audience" = Some audience
       /\ data_dict_of clean_html webpage !! py "nice" = Some nice
       /\ view_count res = count_of audience /\ like_count res = count_of nice)
  /\ (forall s pre digits post, s = pre ++ digits ++ post ->
        Forall (fun c => is_digit c = false) pre -> digits <> [] ->
        Forall (fun c => is_digit c = true) digits ->
        (post = [] \/ exists c post', post = c :: post' /\ is_digit c = false) ->
        count_of s = Some (int_of_digits digits))
  /\ (forall s, Forall (fun c => is_digit c = false) s -> count_of s = None)
  /\ count_of (py "4 回視聴") = Some 4
  /\ count_of (py "再生無し") = None.
Proof.
  split; [|split; [|split; [|split]]].
  - intros clean ie n vid log res webpage h H Hdl.
    apply run_success in H
      as (webpage' & h' & un & st & sa & tree & m3u8 & a & ni & Hdl' & _ & _ & _ & _
          & _ & _ & _ & Ha & Hn & _ & _ & ->).
    rewrite Hdl in Hdl'. injection Hdl' as <- _.
    exists a, ni. repeat split; assumption.
  - intros s pre r post -> Hpre Hr Hd Hpost. unfold count_of, int_or_none.
    rewrite search_digits_found by assumption. reflexivity.
  - intros s Hs. unfold count_of, int_or_none. rewrite search_digits_none by exact Hs. reflexivity.
  - vm_compute. reflexivity.
  - vm_compute. reflexivity.
Qed.

Lemma counts_from_digits_witness :
  count_of (py "4 回視聴") = Some 4
  /\ match snd (run (real_extract DamtomoRecordIE clean_html_model record_net RID)) with
     | inr res =>
         exists audience nice,
           data_dict_of clean_html_model record_page !! py "audience" = Some audience
           /\ data_dict_of clean_html_model record_page !! py "nice" = Some nice
           /\ view_count res = count_of audience /\ like_count res = count_of nice
     | inl _ => False
     end.
Proof.
  split.
  - apply (proj1 (proj2 counts_from_digits) (py "4 回視聴") [] (py "4") (py " 回視聴")).
    + reflexivity.
    + constructor.
    + discriminate.
    + repeat constructor.
    + right. exists SPACE, (py "回視聴"). split; reflexivity.
  - destruct (run (real_extract DamtomoRecordIE clean_html_model record_net RID)) as [log r] eqn:E.
    destruct r as [e|res]; simpl.
    + vm_compute in E. discriminate E.
    + apply (proj1 counts_from_digits clean_html_model DamtomoRecordIE record_net RID log res
               record_page (record_page_url RID) E).
      vm_compute. reflexivity.
Defined.

(** ** C9: the fields a result needs *)

(** C9: the FieldMap keys [user_name], [song_title], [song_artist],
    [audience] and [nice] are required, and [date] is not:
    - every result comes from a page whose FieldMap has all five;
    - after the page checks, a missing [user_name], [song_title] or
      [song_artist] ends the run with the [KeyError] of a missing one of
      them, before the manifest request and with no result;
    - once those three are present and a manifest URL was found, a missing
      [audience] or [nice] ends the run with the [KeyError] of a missing
      one of them, with no result;
    - when the page checks pass, the five keys are present and a manifest
      URL is found, the run produces a result whatever the [date] key holds,
      and without [date] that result has no upload date. *)
Theorem required_fields :
  (forall clean_html ie n video_id log res webpage handle_url k,
     run (real_extract ie clean_html n video_id) = (log, inr res) ->
     download_webpage_handle n (page_url ie video_id) = inr (webpage, handle_url) ->
     In k [py "user_name"; py "song_title"; py "song_artist"; py "audience"; py "nice"] ->
     is_Some (data_dict_of clean_html webpage !! k))
  /\ (forall clean_html ie n video_id webpage handle_url k,
        download_webpage_handle n (page_url ie video_id) = inr (webpage, handle_url) ->
        handle_url <> SORRY_URL ->
        contains SERVER_ERROR_MARKER webpage = false ->
        In k [py "user_name"; py "song_title"; py "song_artist"] ->
        data_dict_of clean_html webpage !! k = None ->
        exists k',
          In k' [py "user_name"; py "song_title"; py "song_artist"]
          /\ data_dict_of clean_html webpage !! k' = None
          /\ run (real_extract ie clean_html n video_id)
             = ([page_url ie video_id], inl (KeyError k')))
  /\ (forall clean_html ie n video_id webpage handle_url stream_tree m3u8_url k,
        download_webpage_handle n (page_url ie video_id) = inr (webpage, handle_url) ->
        handle_url <> SORRY_URL ->
        contains SERVER_ERROR_MARKER webpage = false ->
        is_Some (data_dict_of clean_html webpage !! py "user_name") ->
        is_Some (data_dict_of clean_html webpage !! py "song_title") ->
        is_Some (data_dict_of clean_html webpage !! py "song_artist") ->
        download_xml n (xml_url ie video_id) = inr stream_tree ->
        m3u8_getter (xml_ns ie) stream_tree = inr m3u8_url -> m3u8_url <> [] ->
        In k [py "audience"; py "nice"] ->
        data_dict_of clean_html webpage !! k = None ->
        exists k',
          In k' [py "audience"; py "nice"]
          /\ data_dict_of clean_html webpage !! k' = None
          /\ run (real_extract ie clean_html n video_id)
             = ([page_url ie video_id; xml_url ie video_id], inl (KeyError k')))
  /\ (forall clean_html ie n video_id webpage handle_url stream_tree m3u8_url,
        download_webpage_handle n (page_url ie video_id) = inr (webpage, handle_url) ->
        handle_url <> SORRY_URL ->
        contains SERVER_ERROR_MARKER webpage = false ->
        Forall (fun k => is_Some (data_dict_of clean_html webpage !! k))
          [py "user_name"; py "song_title"; py "song_artist"; py "audience"; py "nice"] ->
        download_xml n (xml_url ie video_id) = inr stream_tree ->
        m3u8_getter (xml_ns ie) stream_tree = inr m3u8_url -> m3u8_url <> [] ->
        exists res,
          run (real_extract ie clean_html n video_id)
          = ([page_url ie video_id; xml_url ie video_id], inr res)
          /\ (data_dict_of clean_html webpage !! py "date" = None -> upload_date res = None)).
Proof.
  split; [|split; [|split]].
  - intros clean ie n vid log res webpage h k H Hdl Hk.
    apply run_success in H
      as (webpage' & h' & un & st & sa & tree & m3u8 & a & ni & Hdl' & _ & _ & _ & _
          & Hu & Hst & Hsa & Ha & Hn & _ & _ & _).
    rewrite Hdl in Hdl'. injection Hdl' as <- _.
    destruct Hk as [<-|[<-|[<-|[<-|[<-|[]]]]]].
    + rewrite Hu. eexists; reflexivity.
    + rewrite Hst. eexists; reflexivity.
    + rewrite Hsa. eexists; reflexivity.
    + rewrite Ha. eexists; reflexivity.
    + rewrite Hn. eexists; reflexivity.
  - intros clean ie n vid webpage h k Hdl Hs Hc Hk Hnone.
    rewrite run_real_extract. unfold staged_run.
    rewrite Hdl, (bool_decide_eq_false_2 _ Hs), Hc. unfold prelude.
    destruct (data_dict_of clean webpage !! py "user_name"%string) as [un|] eqn:Hu.
    2: { exists (py "user_name"). split; [left; reflexivity|].
         split; [exact Hu|reflexivity]. }
    rewrite !lookup_insert_ne by key_neq.
    destruct (data_dict_of clean webpage !! py "song_title"%string) as [st|] eqn:Hst.
    2: { exists (py "song_title"). split; [right; left; reflexivity|].
         split; [exact Hst|reflexivity]. }
    destruct (data_dict_of clean webpage !! py "song_artist"%string) as [sa|] eqn:Hsa.
    2: { exists (py "song_artist"). split; [right; right; left; reflexivity|].
         split; [exact Hsa|reflexivity]. }
    exfalso. destruct Hk as [<-|[<-|[<-|[]]]].
    + rewrite Hnone in Hu. discriminate Hu.
    + rewrite Hnone in Hst. discriminate Hst.
    + rewrite Hnone in Hsa. discriminate Hsa.
  - intros clean ie n vid webpage h tree m3u8 k Hdl Hs Hc [un Hu] [st Hst] [sa Hsa] Hx Hm Hne
      Hk Hnone.
    rewrite run_real_extract. unfold staged_run.
    rewrite Hdl, (bool_decide_eq_false_2 _ Hs), Hc. unfold prelude.
    rewrite Hu, !lookup_insert_ne by key_neq. rewrite Hst, Hsa.
    cbv iota beta. rewrite Hx. unfold finish. rewrite Hm.
    destruct m3u8 as [|c m]; [contradiction|]. cbv iota.
    unfold lookup_or_key_error. rewrite lookup_insert_eq, !lookup_insert_ne by key_neq.
    destruct (data_dict_of clean webpage !! py "audience"%string) as [a|] eqn:Ha.
    2: { exists (py "audience"). split; [left; reflexivity|]. split; [exact Ha|reflexivity]. }
    destruct (data_dict_of clean webpage !! py "nice"%string) as [ni|] eqn:Hn.
    2: { exists (py "nice"). split; [right; left; reflexivity|]. split; [exact Hn|reflexivity]. }
    exfalso. destruct Hk as [<-|[<-|[]]].
    + rewrite Hnone in Ha. discriminate Ha.
    + rewrite Hnone in Hn. discriminate Hn.
  - intros clean ie n vid webpage h tree m3u8 Hdl Hs Hc Hall Hx Hm Hne.
    apply List.Forall_cons_iff in Hall as [[un Hu] Hall].
    apply List.Forall_cons_iff in Hall as [[st Hst] Hall].
    apply List.Forall_cons_iff in Hall as [[sa Hsa] Hall].
    apply List.Forall_cons_iff in Hall as [[a Ha] Hall].
    apply List.Forall_cons_iff in Hall as [[ni Hn] _].
    rewrite run_real_extract. unfold staged_run.
    rewrite Hdl, (bool_decide_eq_false_2 _ Hs), Hc. unfold prelude.
    rewrite Hu, !lookup_insert_ne by key_neq. rewrite Hst, Hsa.
    cbv iota beta. rewrite Hx. unfold finish. rewrite Hm.
    destruct m3u8 as [|c m]; [contradiction|]. cbv iota.
    unfold lookup_or_key_error. rewrite lookup_insert_eq, !lookup_insert_ne by key_neq.
    rewrite Ha, Hn, Hst, Hsa.
    eexists. split; [reflexivity|].
    intros Hd. cbn [upload_date]. unfold upload_date_getter.
    rewrite lookup_insert_ne by key_neq. rewrite Hd. reflexivity.
Qed.

Lemma required_fields_witness :
  (exists k',
     In k' [py "user_name"; py "song_title"; py "song_artist"]
     /\ data_dict_of clean_html_model (py "<html></html>") !! k' = None
     /\ run (real_extract DamtomoRecordIE clean_html_model
              (one_page_net (record_page_url RID) (py "<html></html>") (record_page_url RID) (record_xml_url RID) (streaming_xml record_ns (Some M3U8))) RID)
        = ([page_url DamtomoRecordIE RID], inl (KeyError k')))
  /\ (exists k',
        In k' [py "audience"; py "nice"]
        /\ data_dict_of clean_html_model record_page_no_counts !! k' = None
        /\ run (real_extract DamtomoRecordIE clean_html_model record_net_no_counts RID)
           = ([page_url DamtomoRecordIE RID; xml_url DamtomoRecordIE RID], inl (KeyError k')))
  /\ (exists res,
        run (real_extract DamtomoRecordIE clean_html_model record_net_no_date RID)
        = ([page_url DamtomoRecordIE RID; xml_url DamtomoRecordIE RID], inr res)
        /\ (data_dict_of clean_html_model record_page_no_date !! py "date" = None ->
            upload_date res = None)).
Proof.
  split; [|split].
  - apply (proj1 (proj2 required_fields) clean_html_model DamtomoRecordIE
             (one_page_net (record_page_url RID) (py "<html></html>") (record_page_url RID) (record_xml_url RID) (streaming_xml record_ns (Some M3U8)))
             RID (py "<html></html>") (record_page_url RID) (py "user_name")).
    + vm_compute. reflexivity.
    + intros H. apply (f_equal (take 55)) in H. vm_compute in H. discriminate H.
    + vm_compute. reflexivity.
    + left. reflexivity.
    + vm_compute. reflexivity.
  - apply (proj1 (proj2 (proj2 required_fields)) clean_html_model DamtomoRecordIE
             record_net_no_counts RID record_page_no_counts (record_page_url RID) (streaming_xml record_ns (Some M3U8))
             M3U8 (py "nice")).
    + vm_compute. reflexivity.
    + intros H. apply (f_equal (take 55)) in H. vm_compute in H. discriminate H.
    + vm_compute. reflexivity.
    + vm_compute. eexists. reflexivity.
    + vm_compute. eexists. reflexivity.
    + vm_compute. eexists. reflexivity.
    + vm_compute. reflexivity.
    + vm_compute. reflexivity.
    + intros H. vm_compute in H. discriminate H.
    + right; left. reflexivity.
    + vm_compute. reflexivity.
  - apply (proj2 (proj2 (proj2 required_fields)) clean_html_model DamtomoRecordIE
             record_net_no_date RID record_page_no_date (record_page_url RID)
             (streaming_xml record_ns (Some M3U8)) M3U8).
    + vm_compute. reflexivity.
    + intros H. apply (f_equal (take 55)) in H. vm_compute in H. discriminate H.
    + vm_compute. reflexivity.
    + repeat constructor; vm_compute; eexists; reflexivity.
    + vm_compute. reflexivity.
    + vm_compute. reflexivity.
    + intros H. vm_compute in H. discriminate H.
Defined.

(** C9, as stated, fails for [date]: [record_page_no_date] has every field
    of the recording page but [date], and the extraction still succeeds,
    its result having no upload date ([try_get] turns the [KeyError] of
    [x['date']] into [None]). *)
Lemma missing_date_counterexample :
  data_dict_of clean_html_model record_page_no_date !! py "date" = None
  /\ match snd (run (real_extract DamtomoRecordIE clean_html_model record_net_no_date RID)) with
     | inr res => upload_date res = None
                  /\ title res = py "イカSUMMER [良音]-ORANGE RANGE-ＮＡＮＡ"
     | inl _ => False
     end.
Proof. split; vm_compute; [reflexivity|split; reflexivity]. Qed.

(** ** C10: one extraction, two sets of constants *)

(** C10: both [_real_extract] methods are [damtomo_real_extract] with their
    own page URL template, XML URL template and XML namespace, and nothing
    else; so on the same page (and final URL) for the same id, with
    manifest trees in which the lookup under each one's namespace gives the
    same outcome, they compute the same outcome (the same result record, or
    the same error), having requested the corresponding URLs. *)
Theorem extractors_share_logic :
  (forall clean_html,
     DamtomoVideoIE_real_extract clean_html
     = damtomo_real_extract clean_html video_page_url video_xml_url video_ns
     /\ DamtomoRecordIE_real_extract clean_html
        = damtomo_real_extract clean_html record_page_url record_xml_url record_ns)
  /\ (forall clean_html n1 n2 video_id tree1 tree2,
        download_webpage_handle n1 (page_url DamtomoVideoIE video_id)
        = download_webpage_handle n2 (page_url DamtomoRecordIE video_id) ->
        download_xml n1 (xml_url DamtomoVideoIE video_id) = inr tree1 ->
        download_xml n2 (xml_url DamtomoRecordIE video_id) = inr tree2 ->
        m3u8_getter (xml_ns DamtomoVideoIE) tree1 = m3u8_getter (xml_ns DamtomoRecordIE) tree2 ->
        snd (run (real_extract DamtomoVideoIE clean_html n1 video_id))
        = snd (run (real_extract DamtomoRecordIE clean_html n2 video_id))
        /\ exists j,
             fst (run (real_extract DamtomoVideoIE clean_html n1 video_id))
             = take j [page_url DamtomoVideoIE video_id; xml_url DamtomoVideoIE video_id]
             /\ fst (run (real_extract DamtomoRecordIE clean_html n2 video_id))
                = take j [page_url DamtomoRecordIE video_id; xml_url DamtomoRecordIE video_id]).
Proof.
  split.
  - intros clean. split; [exact (video_is_core clean)|exact (record_is_core clean)].
  - intros clean n1 n2 vid tree1 tree2 Hpage Hx1 Hx2 Hm.
    rewrite !run_real_extract. unfold staged_run.
    rewrite Hpage.
    destruct (download_webpage_handle n2 (page_url DamtomoRecordIE vid)) as [e|[w h]].
    { split; [cbn [snd]; reflexivity|]. exists 1%nat. split; cbn [fst]; reflexivity. }
    destruct (bool_decide (h = SORRY_URL)).
    { split; [cbn [snd]; reflexivity|]. exists 1%nat. split; cbn [fst]; reflexivity. }
    destruct (contains SERVER_ERROR_MARKER w).
    { split; [cbn [snd]; reflexivity|]. exists 1%nat. split; cbn [fst]; reflexivity. }
    destruct (prelude clean w) as [e|[d t]].
    { split; [cbn [snd]; reflexivity|]. exists 1%nat. split; cbn [fst]; reflexivity. }
    rewrite Hx1, Hx2. split.
    + cbn [snd]. unfold finish. rewrite Hm. reflexivity.
    + exists 2%nat. split; cbn [fst]; reflexivity.
Qed.

Lemma extractors_share_logic_witness :
  snd (run (real_extract DamtomoVideoIE clean_html_model
              (one_page_net (video_page_url RID) record_page (record_page_url RID)
                 (video_xml_url RID) (streaming_xml video_ns (Some M3U8))) RID))
  = snd (run (real_extract DamtomoRecordIE clean_html_model record_net RID)).
Proof.
  assert (H1 : download_webpage_handle
                 (one_page_net (video_page_url RID) record_page (record_page_url RID)
                    (video_xml_url RID) (streaming_xml video_ns (Some M3U8)))
                 (page_url DamtomoVideoIE RID)
               = download_webpage_handle record_net (page_url DamtomoRecordIE RID))
    by (vm_compute; reflexivity).
  assert (H2 : download_xml
                 (one_page_net (video_page_url RID) record_page (record_page_url RID)
                    (video_xml_url RID) (streaming_xml video_ns (Some M3U8)))
                 (xml_url DamtomoVideoIE RID)
               = inr (streaming_xml video_ns (Some M3U8)))
    by (vm_compute; reflexivity).
  assert (H3 : download_xml record_net (xml_url DamtomoRecordIE RID)
               = inr (streaming_xml record_ns (Some (py "  " ++ M3U8 ++ py "
"))))
    by (vm_compute; reflexivity).
  assert (H4 : m3u8_getter (xml_ns DamtomoVideoIE) (streaming_xml video_ns (Some M3U8))
               = m3u8_getter (xml_ns DamtomoRecordIE)
                   (streaming_xml record_ns (Some (py "  " ++ M3U8 ++ py "
"))))
    by (vm_compute; reflexivity).
  exact (proj1 (proj2 extractors_share_logic clean_html_model _ _ RID _ _ H1 H2 H3 H4)).
Defined.

(** ** The URL patterns *)

Lemma lit_some {A} (l : pystr) (k : pystr -> option A) (r : pystr) (a : A) :
  lit l k r = Some a -> exists r', r = l ++ r' /\ k r' = Some a.
Proof.
  unfold lit. destruct (is_prefix l r) eqn:E; [|discriminate].
  intros H. exists (drop (List.length l) r). split; [apply is_prefix_spec, E|exact H].
Qed.

Lemma lit_app {A} (l : pystr) (k : pystr -> option A) (r : pystr) : lit l k (l ++ r) = k r.
Proof. unfold lit. rewrite is_prefix_app, drop_app_length. reflexivity. Qed.

Lemma opt_lit_some {A} (l : pystr) (k : pystr -> option A) (r : pystr) (a : A) :
  opt_lit l k r = Some a -> exists (b : bool) r', r = (if b then l else []) ++ r' /\ k r' = Some a.
Proof.
  unfold opt_lit. destruct (lit l k r) as [a'|] eqn:E.
  - intros H. injection H as ->. apply lit_some in E as (r' & -> & Hk).
    exists true, r'. split; [reflexivity|exact Hk].
  - intros H. exists false, r. split; [reflexivity|exact H].
Qed.

Lemma opt_lit_bool {A} (l : pystr) (k : pystr -> option A) (b : bool) (r : pystr) (a : A) :
  (b = true \/ is_prefix l r = false) -> k r = Some a ->
  opt_lit l k ((if b then l else []) ++ r) = Some a.
Proof.
  intros Hb Hk. unfold opt_lit. destruct b.
  - rewrite lit_app, Hk. reflexivity.
  - destruct Hb as [Hb|Hb]; [discriminate|]. cbn [app].
    unfold lit. rewrite Hb. exact Hk.
Qed.

Lemma match_digits_iff (r id : pystr) :
  match_digits r = Some id <->
  exists rest, r = id ++ rest /\ id <> [] /\ Forall (fun c => is_digit c = true) id
    /\ (rest = [] \/ exists c rest', rest = c :: rest' /\ is_digit c = false).
Proof.
  split.
  - unfold match_digits. destruct (span is_digit r) as [a b] eqn:E.
    apply span_spec in E as (-> & Ha & Hb).
    destruct (decide (a = [])) as [Hn|Hn].
    + rewrite bool_decide_eq_true_2 by exact Hn. discriminate.
    + rewrite bool_decide_eq_false_2 by exact Hn. intros H. injection H as <-.
      exists b. repeat split; assumption.
  - intros (rest & -> & Hn & Hd & Hr). unfold match_digits.
    rewrite span_app by assumption. rewrite bool_decide_eq_false_2 by exact Hn. reflexivity.
Qed.

Lemma valid_url_sound (path url id : pystr) :
  valid_url_matcher path url = Some id ->
  exists s www sp rest,
    url = url_prefix s www sp ++ path ++ id ++ rest
    /\ id <> [] /\ Forall (fun c => is_digit c = true) id
    /\ (rest = [] \/ exists c rest', rest = c :: rest' /\ is_digit c = false).
Proof.
  unfold valid_url_matcher. intros H.
  apply lit_some in H as (r1 & -> & H).
  apply opt_lit_some in H as (s & r2 & -> & H).
  apply lit_some in H as (r3 & -> & H).
  apply opt_lit_some in H as (www & r4 & -> & H).
  apply lit_some in H as (r5 & -> & H).
  apply opt_lit_some in H as (sp & r6 & -> & H).
  apply lit_some in H as (r7 & -> & H).
  apply match_digits_iff in H as (rest & -> & Hn & Hd & Hr).
  exists s, www, sp, rest. split; [|split; [exact Hn|split; [exact Hd|exact Hr]]].
  unfold url_prefix. rewrite <- !app_assoc. reflexivity.
Qed.

Lemma valid_url_complete (path : pystr) (s www sp : bool) (id rest : pystr) :
  (forall r, is_prefix (py "SP/") (path ++ r) = false) ->
  id <> [] -> Forall (fun c => is_digit c = true) id ->
  (rest = [] \/ exists c rest', rest = c :: rest' /\ is_digit c = false) ->
  valid_url_matcher path (url_prefix s www sp ++ path ++ id ++ rest) = Some id.
Proof.
  intros Hpath Hn Hd Hr. unfold valid_url_matcher, url_prefix. rewrite <- !app_assoc.
  rewrite lit_app. apply opt_lit_bool.
  { destruct s; [left; reflexivity|right; vm_compute; reflexivity]. }
  rewrite lit_app. apply opt_lit_bool.
  { destruct www; [left; reflexivity|right; vm_compute; reflexivity]. }
  rewrite lit_app. apply opt_lit_bool.
  { destruct sp; [left; reflexivity|right; apply Hpath]. }
  rewrite lit_app. apply match_digits_iff. exists rest. repeat split; assumption.
Qed.

(** [re.match] of [DamtomoVideoIE._VALID_URL] succeeds exactly on the URLs
    [http] or [https], then [://], optionally [www.], then
    [clubdam.com/app/damtomo/], optionally [SP/], then
    [karaokeMovie/StreamingDkm.do?karaokeMovieId=] and a non-empty run of
    (Unicode) decimal digits, followed by anything not starting with a
    digit; the id is that whole run of digits. *)
Theorem video_valid_url_iff (url id : pystr) :
  DamtomoVideoIE_valid_url url = Some id <->
  exists s www sp rest,
    url = url_prefix s www sp ++ VIDEO_URL_PATH ++ id ++ rest
    /\ id <> [] /\ Forall (fun c => is_digit c = true) id
    /\ (rest = [] \/ exists c rest', rest = c :: rest' /\ is_digit c = false).
Proof.
  split; [apply valid_url_sound|].
  intros (s & www & sp & rest & -> & Hn & Hd & Hr).
  apply valid_url_complete; [|assumption..]. intros r. vm_compute. reflexivity.
Qed.

(** The same for [DamtomoRecordIE._VALID_URL], with
    [karaokePost/StreamingKrk.do?karaokeContributeId=]. *)
Theorem record_valid_url_iff (url id : pystr) :
  DamtomoRecordIE_valid_url url = Some id <->
  exists s www sp rest,
    url = url_prefix s www sp ++ RECORD_URL_PATH ++ id ++ rest
    /\ id <> [] /\ Forall (fun c => is_digit c = true) id
    /\ (rest = [] \/ exists c rest', rest = c :: rest' /\ is_digit c = false).
Proof.
  split; [apply valid_url_sound|].
  intros (s & www & sp & rest & -> & Hn & Hd & Hr).
  apply valid_url_complete; [|assumption..]. intros r. vm_compute. reflexivity.
Qed.

Lemma video_valid_url_iff_witness :
  DamtomoVideoIE_valid_url
    (py "http://clubdam.com/app/damtomo/SP/karaokeMovie/StreamingDkm.do?karaokeMovieId=１２３&x=1")
  = Some (py "１２３").
Proof.
  apply (proj2 (video_valid_url_iff _ _)).
  exists false, false, true, (py "&x=1").
  split; [vm_compute; reflexivity|].
  split; [discriminate|]. split; [repeat constructor|].
  right. exists 38, (py "x=1"). split; reflexivity.
Defined.

Lemma record_valid_url_iff_witness :
  DamtomoRecordIE_valid_url
    (py "https://www.clubdam.com/app/damtomo/karaokePost/StreamingKrk.do?karaokeContributeId=27376862")
  = Some (py "27376862").
Proof.
  apply (proj2 (record_valid_url_iff _ _)).
  exists true, true, false, [].
  split; [vm_compute; reflexivity|].
  split; [discriminate|]. split; [repeat constructor|]. left. reflexivity.
Defined.

(** No URL is matched by both [_VALID_URL] patterns: each URL is handled by
    at most one of the two extractors. *)
Theorem valid_urls_disjoint (url a b : pystr) :
  DamtomoVideoIE_valid_url url = Some a -> DamtomoRecordIE_valid_url url = Some b -> False.
Proof.
  intros Ha Hb.
  apply valid_url_sound in Ha as (s & www & sp & r & -> & _).
  apply valid_url_sound in Hb as (s' & www' & sp' & r' & E & _).
  apply (f_equal (take 60)) in E.
  destruct s, www, sp, s', www', sp'; vm_compute in E; discriminate E.
Qed.

Lemma valid_urls_disjoint_witness :
  DamtomoVideoIE_valid_url (video_page_url VID) = Some VID
  /\ (DamtomoRecordIE_valid_url (video_page_url VID) = Some VID -> False).
Proof.
  split; [vm_compute; reflexivity|].
  apply (valid_urls_disjoint (video_page_url VID) VID VID). vm_compute. reflexivity.
Defined.

(** The page URL each extractor requests for an id made of decimal digits
    is itself a URL of that extractor, whose [_VALID_URL] match gives back
    the same id. *)
Theorem page_url_round_trip (ie : extractor) (id : pystr) :
  id <> [] -> Forall (fun c => is_digit c = true) id ->
  valid_url ie (page_url ie id) = Some id.
Proof.
  intros Hn Hd. destruct ie.
  - assert (E : page_url DamtomoVideoIE id = url_prefix true true false ++ VIDEO_URL_PATH ++ id ++ []).
    { change (page_url DamtomoVideoIE id) with (video_page_url id). unfold video_page_url.
      rewrite app_nil_r, app_assoc. apply (f_equal (fun x => x ++ id)). vm_compute. reflexivity. }
    rewrite E. apply (valid_url_complete VIDEO_URL_PATH); [|assumption|assumption|left; reflexivity].
    intros r. vm_compute. reflexivity.
  - assert (E : page_url DamtomoRecordIE id = url_prefix true true false ++ RECORD_URL_PATH ++ id ++ []).
    { change (page_url DamtomoRecordIE id) with (record_page_url id). unfold record_page_url.
      rewrite app_nil_r, app_assoc. apply (f_equal (fun x => x ++ id)). vm_compute. reflexivity. }
    rewrite E. apply (valid_url_complete RECORD_URL_PATH); [|assumption|assumption|left; reflexivity].
    intros r. vm_compute. reflexivity.
Qed.

Lemma page_url_round_trip_witness :
  valid_url DamtomoRecordIE (page_url DamtomoRecordIE RID) = Some RID.
Proof. apply page_url_round_trip; [discriminate|repeat constructor]. Defined.

(** ** What a run requests and how it can fail *)

(** A run requests the page, and then at most the XML document: the XML
    request is made only when the page was downloaded, was not redirected to
    the rate-limit page, has no server-error marker, and its FieldMap has
    [user_name], [song_title] and [song_artist]. *)
Theorem request_log (ie : extractor) (clean_html : pystr -> pystr) (n : net) (video_id : pystr) :
  fst (run (real_extract ie clean_html n video_id)) = [page_url ie video_id]
  \/ (fst (run (real_extract ie clean_html n video_id))
      = [page_url ie video_id; xml_url ie video_id]
      /\ exists webpage handle_url un st sa,
           download_webpage_handle n (page_url ie video_id) = inr (webpage, handle_url)
           /\ handle_url <> SORRY_URL
           /\ contains SERVER_ERROR_MARKER webpage = false
           /\ data_dict_of clean_html webpage !! py "user_name" = Some un
           /\ data_dict_of clean_html webpage !! py "song_title" = Some st
           /\ data_dict_of clean_html webpage !! py "song_artist" = Some sa).
Proof.
  rewrite run_real_extract. unfold staged_run.
  destruct (download_webpage_handle n (page_url ie video_id)) as [e|[w h]] eqn:Hdl.
  { left. reflexivity. }
  destruct (decide (h = SORRY_URL)) as [Hs|Hs].
  { rewrite bool_decide_eq_true_2 by exact Hs. left. reflexivity. }
  rewrite bool_decide_eq_false_2 by exact Hs.
  destruct (contains SERVER_ERROR_MARKER w) eqn:Hc.
  { left. reflexivity. }
  destruct (prelude clean_html w) as [e|[d t]] eqn:Hp.
  { left. reflexivity. }
  right. split; [reflexivity|].
  apply prelude_ok in Hp as (un & st & sa & Hu & Hst & Hsa & _ & _).
  exists w, h, un, st, sa. repeat split; assumption.
Qed.

Lemma finish_error ns vid webpage d t tree e :
  finish ns vid webpage d t tree = inl e ->
  e = ExtractorError NO_M3U8_MSG false
  \/ exists k, In k [py "user_name"; py "audience"; py "nice"; py "song_title"; py "song_artist"]
       /\ d !! k = None /\ e = KeyError k.
Proof.
  unfold finish, lookup_or_key_error. intros H.
  destruct (m3u8_getter ns tree) as [e'|[|c m]].
  { injection H as <-. left. reflexivity. }
  { injection H as <-. left. reflexivity. }
  right.
  destruct (d !! py "user_name"%string) as [un|] eqn:Hu.
  2: { injection H as <-. exists (py "user_name"). split; [left; reflexivity|]. split; [exact Hu|reflexivity]. }
  destruct (d !! py "audience"%string) as [a|] eqn:Ha.
  2: { injection H as <-. exists (py "audience"). split; [right; left; reflexivity|]. split; [exact Ha|reflexivity]. }
  destruct (d !! py "nice"%string) as [ni|] eqn:Hn.
  2: { injection H as <-. exists (py "nice"). split; [right; right; left; reflexivity|]. split; [exact Hn|reflexivity]. }
  destruct (d !! py "song_title"%string) as [st|] eqn:Hst.
  2: { injection H as <-. exists (py "song_title").
       split; [right; right; right; left; reflexivity|]. split; [exact Hst|reflexivity]. }
  destruct (d !! py "song_artist"%string) as [sa|] eqn:Hsa.
  2: { injection H as <-. exists (py "song_artist").
       split; [right; right; right; right; left; reflexivity|]. split; [exact Hsa|reflexivity]. }
  discriminate H.
Qed.

(** The only errors a run ends in are an error of one of its two downloads,
    the three [ExtractorError]s it raises itself (rate-limited, server-side
    error, no m3u8 URL), or a [KeyError] for one of [user_name],
    [song_title], [song_artist], [audience] and [nice] that is missing from
    the page's FieldMap; in particular the [AttributeError]s of the two
    [try_get] getters never escape. *)
Theorem run_errors (ie : extractor) (clean_html : pystr -> pystr) (n : net) (video_id : pystr)
    (log : list pystr) (e : exn) :
  run (real_extract ie clean_html n video_id) = (log, inl e) ->
  download_webpage_handle n (page_url ie video_id) = inl e
  \/ download_xml n (xml_url ie video_id) = inl e
  \/ e = ExtractorError RATE_LIMITED_MSG true
  \/ e = ExtractorError SERVER_ERROR_MSG true
  \/ e = ExtractorError NO_M3U8_MSG false
  \/ exists webpage handle_url k,
       download_webpage_handle n (page_url ie video_id) = inr (webpage, handle_url)
       /\ In k [py "user_name"; py "song_title"; py "song_artist"; py "audience"; py "nice"]
       /\ data_dict_of clean_html webpage !! k = None /\ e = KeyError k.
Proof.
  rewrite run_real_extract. unfold staged_run. intros H.
  destruct (download_webpage_handle n (page_url ie video_id)) as [e'|[w h]] eqn:Hdl.
  { injection H as _ <-. left. reflexivity. }
  destruct (decide (h = SORRY_URL)) as [Hs|Hs].
  { rewrite bool_decide_eq_true_2 in H by exact Hs. injection H as _ <-.
    right; right; left. reflexivity. }
  rewrite bool_decide_eq_false_2 in H by exact Hs.
  destruct (contains SERVER_ERROR_MARKER w) eqn:Hc.
  { injection H as _ <-. right; right; right; left. reflexivity. }
  destruct (prelude clean_html w) as [e'|[d t]] eqn:Hp.
  { injection H as _ <-. do 5 right. exists w, h. unfold prelude in Hp.
    destruct (data_dict_of clean_html w !! py "user_name"%string) as [un|] eqn:Hu.
    2: { injection Hp as <-. exists (py "user_name").
         split; [reflexivity|]. split; [left; reflexivity|]. split; [exact Hu|reflexivity]. }
    rewrite !lookup_insert_ne in Hp by key_neq.
    destruct (data_dict_of clean_html w !! py "song_title"%string) as [st|] eqn:Hst.
    2: { injection Hp as <-. exists (py "song_title").
         split; [reflexivity|]. split; [right; left; reflexivity|]. split; [exact Hst|reflexivity]. }
    destruct (data_dict_of clean_html w !! py "song_artist"%string) as [sa|] eqn:Hsa.
    2: { injection Hp as <-. exists (py "song_artist").
         split; [reflexivity|]. split; [right; right; left; reflexivity|]. split; [exact Hsa|reflexivity]. }
    discriminate Hp. }
  destruct (download_xml n (xml_url ie video_id)) as [e'|tree] eqn:Hx.
  { injection H as _ <-. right; left. reflexivity. }
  injection H as _ Hf.
  apply prelude_ok in Hp as (un & st & sa & Hu & Hst & Hsa & -> & ->).
  apply finish_error in Hf as [-> | (k & Hk & Hnone & ->)].
  { right; right; right; right; left. reflexivity. }
  do 5 right. exists w, h, k.
  destruct Hk as [<-|[<-|[<-|[<-|[<-|[]]]]]].
  - rewrite lookup_insert_eq in Hnone. discriminate Hnone.
  - rewrite lookup_insert_ne in Hnone by key_neq.
    split; [reflexivity|]. split; [right; right; right; left; reflexivity|]. split; [exact Hnone|reflexivity].
  - rewrite lookup_insert_ne in Hnone by key_neq.
    split; [reflexivity|]. split; [right; right; right; right; left; reflexivity|]. split; [exact Hnone|reflexivity].
  - rewrite lookup_insert_ne in Hnone by key_neq.
    split; [reflexivity|]. split; [right; left; reflexivity|]. split; [exact Hnone|reflexivity].
  - rewrite lookup_insert_ne in Hnone by key_neq.
    split; [reflexivity|]. split; [right; right; left; reflexivity|]. split; [exact Hnone|reflexivity].
Qed.

Lemma run_errors_witness :
  download_webpage_handle blank_net (page_url DamtomoRecordIE RID) = inl (ExtractorError NO_M3U8_MSG false)
  \/ download_xml blank_net (xml_url DamtomoRecordIE RID) = inl (ExtractorError NO_M3U8_MSG false)
  \/ ExtractorError NO_M3U8_MSG false = ExtractorError RATE_LIMITED_MSG true
  \/ ExtractorError NO_M3U8_MSG false = ExtractorError SERVER_ERROR_MSG true
  \/ ExtractorError NO_M3U8_MSG false = ExtractorError NO_M3U8_MSG false
  \/ exists webpage handle_url k,
       download_webpage_handle blank_net (page_url DamtomoRecordIE RID) = inr (webpage, handle_url)
       /\ In k [py "user_name"; py "song_title"; py "song_artist"; py "audience"; py "nice"]
       /\ data_dict_of clean_html_model webpage !! k = None
       /\ ExtractorError NO_M3U8_MSG false = KeyError k.
Proof.
  apply (run_errors DamtomoRecordIE clean_html_model blank_net RID
           [page_url DamtomoRecordIE RID; xml_url DamtomoRecordIE RID]).
  vm_compute. reflexivity.
Defined.

(** ** The fields of a result *)

(** Every result's title is its own [song_title], [song_artist] and
    [uploader] joined by [-], and its id is the requested id. *)
Theorem result_title_consistent (ie : extractor) (clean_html : pystr -> pystr) (n : net)
    (video_id : pystr) (log : list pystr) (res : info) :
  run (real_extract ie clean_html n video_id) = (log, inr res) ->
  title res = song_title res ++ py "-" ++ song_artist res ++ py "-" ++ uploader res
  /\ id res = video_id.
Proof.
  intros H.
  apply run_success in H
    as (webpage & h & un & st & sa & tree & m3u8 & a & ni & _ & _ & _ & _ & _
        & _ & _ & _ & _ & _ & _ & _ & ->).
  split; reflexivity.
Qed.

Lemma result_title_consistent_witness :
  match snd (run (real_extract DamtomoRecordIE clean_html_model record_net RID)) with
  | inr res => title res = song_title res ++ py "-" ++ song_artist res ++ py "-" ++ uploader res
               /\ id res = RID
  | inl _ => False
  end.
Proof.
  destruct (run (real_extract DamtomoRecordIE clean_html_model record_net RID)) as [log r] eqn:E.
  destruct r as [e|res]; simpl.
  - vm_compute in E. discriminate E.
  - exact (result_title_consistent DamtomoRecordIE clean_html_model record_net RID log res E).
Defined.

Lemma drop_while_spec (p : Z -> bool) (s : pystr) :
  exists w, s = w ++ drop_while p s /\ Forall (fun c => p c = true) w
    /\ (forall c r, drop_while p s = c :: r -> p c = false).
Proof.
  induction s as [|c s IH].
  - exists []. split; [reflexivity|]. split; [constructor|]. intros c r H. discriminate H.
  - simpl. destruct (p c) eqn:Hc.
    + destruct IH as (w & Hs & Hw & Hh). exists (c :: w).
      split; [rewrite Hs at 1; reflexivity|]. split; [constructor; assumption|exact Hh].
    + exists []. split; [reflexivity|]. split; [constructor|].
      intros c' r H. injection H as <- _. exact Hc.
Qed.

(** [s.strip()] is a part of [s] that neither starts nor ends with
    whitespace. *)
Lemma py_strip_parts (t : pystr) :
  (exists a b, t = a ++ py_strip t ++ b)
  /\ (forall c u, py_strip t = c :: u -> is_space c = false)
  /\ (forall u c, py_strip t = u ++ [c] -> is_space c = false).
Proof.
  unfold py_strip.
  destruct (drop_while_spec is_space t) as (w1 & Ht & _ & Ha).
  set (a := drop_while is_space t) in *.
  destruct (drop_while_spec is_space (rev a)) as (w2 & Hra & _ & Hb).
  set (b := drop_while is_space (rev a)) in *.
  assert (Ea : a = rev b ++ rev w2).
  { rewrite <- (rev_involutive a), Hra, rev_app_distr. reflexivity. }
  split; [|split].
  - exists w1, (rev w2). rewrite Ht at 1. rewrite Ea. reflexivity.
  - intros c u E. apply (Ha c (u ++ rev w2)). rewrite Ea, E. reflexivity.
  - intros u c E. apply (Hb c (rev u)).
    rewrite <- (rev_involutive b), E, rev_app_distr. reflexivity.
Qed.

(** The manifest URL of every result is non-empty and has no whitespace at
    either end, in the one format [hls] / [mp4] / [m3u8_native]. *)
Theorem result_format_url (ie : extractor) (clean_html : pystr -> pystr) (n : net)
    (video_id : pystr) (log : list pystr) (res : info) :
  run (real_extract ie clean_html n video_id) = (log, inr res) ->
  exists u,
    formats res = [{| format_id := py "hls"; url := u; ext := py "mp4";
                      protocol := py "m3u8_native" |}]
    /\ u <> []
    /\ (forall c u', u = c :: u' -> is_space c = false)
    /\ (forall u' c, u = u' ++ [c] -> is_space c = false).
Proof.
  intros H.
  apply run_success in H
    as (webpage & h & un & st & sa & tree & m3u8 & a & ni & _ & _ & _ & _ & _
        & _ & _ & _ & _ & _ & Hm & Hne & ->).
  exists m3u8. split; [reflexivity|]. split; [exact Hne|].
  unfold m3u8_getter in Hm.
  destruct (find_desc _ tree) as [e|]; [|discriminate Hm].
  destruct (elem_text e) as [t|]; [|discriminate Hm].
  injection Hm as <-. destruct (py_strip_parts t) as (_ & H1 & H2). split; assumption.
Qed.

Lemma result_format_url_witness :
  match snd (run (real_extract DamtomoRecordIE clean_html_model record_net RID)) with
  | inr res =>
      exists u,
        formats res = [{| format_id := py "hls"; url := u; ext := py "mp4";
                          protocol := py "m3u8_native" |}]
        /\ u <> []
        /\ (forall c u', u = c :: u' -> is_space c = false)
        /\ (forall u' c, u = u' ++ [c] -> is_space c = false)
  | inl _ => False
  end.
Proof.
  destruct (run (real_extract DamtomoRecordIE clean_html_model record_net RID)) as [log r] eqn:E.
  destruct r as [e|res]; simpl.
  - vm_compute in E. discriminate E.
  - exact (result_format_url DamtomoRecordIE clean_html_model record_net RID log res E).
Defined.

Lemma search_sound {A} (mt : pystr -> option A) (s : pystr) (a : A) :
  search mt s = Some a -> exists pre suf, s = pre ++ suf /\ mt suf = Some a.
Proof.
  induction s as [|c s IH]; rewrite search_unfold; intros H.
  - destruct (mt []) eqn:E; [|discriminate H]. exists [], []. split; [reflexivity|]. rewrite E. exact H.
  - destruct (mt (c :: s)) eqn:E.
    + exists [], (c :: s). split; [reflexivity|]. rewrite E. exact H.
    + destruct (IH H) as (pre & suf & -> & Hm). exists (c :: pre), suf. split; [reflexivity|exact Hm].
Qed.

Lemma digit_value_range (c v : Z) : digit_value c = Some v -> 0 <= v <= 9.
Proof.
  unfold digit_value. destruct (List.find _ decimal_zeros) as [z|] eqn:E; [|discriminate].
  intros H. injection H as <-. apply find_some in E as [_ E].
  apply andb_true_iff in E as [E1 E2]. apply Z.leb_le in E1. apply Z.leb_le in E2. lia.
Qed.

Lemma int_of_digits_nonneg (s : pystr) : 0 <= int_of_digits s.
Proof.
  unfold int_of_digits.
  assert (G : forall z, 0 <= z ->
    0 <= fold_left (fun acc c => acc * 10 + default 0 (digit_value c)) s z).
  { induction s as [|c s IH]; intros z Hz; simpl; [exact Hz|].
    apply IH. destruct (digit_value c) as [v|] eqn:E; simpl.
    - apply digit_value_range in E. lia.
    - lia. }
  apply G. lia.
Qed.

Lemma count_of_nonneg (s : pystr) (v : Z) : count_of s = Some v -> 0 <= v.
Proof.
  unfold count_of, int_or_none. destruct (search match_digits s); [|discriminate].
  intros H. injection H as <-. apply int_of_digits_nonneg.
Qed.

(** The view count and the like count of a result, when present, are never
    negative. *)
Theorem result_counts_nonneg (ie : extractor) (clean_html : pystr -> pystr) (n : net)
    (video_id : pystr) (log : list pystr) (res : info) :
  run (real_extract ie clean_html n video_id) = (log, inr res) ->
  (forall v, view_count res = Some v -> 0 <= v) /\ (forall v, like_count res = Some v -> 0 <= v).
Proof.
  intros H.
  apply run_success in H
    as (webpage & h & un & st & sa & tree & m3u8 & a & ni & _ & _ & _ & _ & _
        & _ & _ & _ & _ & _ & _ & _ & ->).
  split; apply count_of_nonneg.
Qed.

Lemma result_counts_nonneg_witness :
  match snd (run (real_extract DamtomoRecordIE clean_html_model record_net RID)) with
  | inr res => (forall v, view_count res = Some v -> 0 <= v) /\ (forall v, like_count res = Some v -> 0 <= v)
  | inl _ => False
  end.
Proof.
  destruct (run (real_extract DamtomoRecordIE clean_html_model record_net RID)) as [log r] eqn:E.
  destruct r as [e|res]; simpl.
  - vm_compute in E. discriminate E.
  - exact (result_counts_nonneg DamtomoRecordIE clean_html_model record_net RID log res E).
Defined.

Lemma digit_not_slash (c : Z) : is_digit c = true -> (c =? SLASH) = false.
Proof.
  intros H. destruct (Z.eqb_spec c SLASH) as [->|_]; [discriminate H|reflexivity].
Qed.

Lemma date_shaped_filter (m : pystr) :
  date_shaped m = true ->
  List.length (filter (fun c => negb (c =? SLASH)) m) = 8%nat
  /\ Forall (fun c => is_digit c = true) (filter (fun c => negb (c =? SLASH)) m).
Proof.
  intros H.
  destruct m as [|y1 [|y2 [|y3 [|y4 [|s1 [|m1 [|m2 [|s2 [|d1 [|d2 [|x m]]]]]]]]]]];
    try discriminate H.
  unfold date_shaped in H.
  repeat match goal with Hb : _ && _ = true |- _ => apply andb_true_iff in Hb as [Hb ?] end.
  repeat match goal with Hb : (_ =? SLASH) = true |- _ => apply Z.eqb_eq in Hb; subst end.
  rewrite !filter_cons.
  repeat match goal with Hd : is_digit ?c = true |- _ =>
    rewrite (digit_not_slash c Hd); revert Hd end.
  rewrite Z.eqb_refl. intros. simpl. split; [reflexivity|].
  repeat constructor; assumption.
Qed.

(** The upload date of a result, when present, is exactly eight decimal
    digits. *)
Theorem result_upload_date_digits (ie : extractor) (clean_html : pystr -> pystr) (n : net)
    (video_id : pystr) (log : list pystr) (res : info) (d : pystr) :
  run (real_extract ie clean_html n video_id) = (log, inr res) ->
  upload_date res = Some d ->
  List.length d = 8%nat /\ Forall (fun c => is_digit c = true) d.
Proof.
  intros H Hd.
  apply run_success in H
    as (webpage & h & un & st & sa & tree & m3u8 & a & ni & _ & _ & _ & _ & _
        & _ & _ & _ & _ & _ & _ & _ & ->).
  cbn [upload_date] in Hd. unfold upload_date_getter in Hd.
  destruct (data_dict_of clean_html webpage !! py "date"%string) as [v|]; [|discriminate Hd].
  destruct (search match_date v) as [m|] eqn:Hs; [|discriminate Hd].
  injection Hd as <-.
  apply search_sound in Hs as (pre & suf & _ & Hm).
  unfold match_date in Hm. destruct (date_shaped (take 10 suf)) eqn:E; [|discriminate Hm].
  injection Hm as <-. apply date_shaped_filter, E.
Qed.

Lemma result_upload_date_digits_witness :
  match snd (run (real_extract DamtomoRecordIE clean_html_model record_net RID)) with
  | inr res =>
      match upload_date res with
      | Some d => List.length d = 8%nat /\ Forall (fun c => is_digit c = true) d
      | None => False
      end
  | inl _ => False
  end.
Proof.
  destruct (run (real_extract DamtomoRecordIE clean_html_model record_net RID)) as [log r] eqn:E.
  destruct r as [e|res]; cbn [snd].
  - vm_compute in E. discriminate E.
  - destruct (upload_date res) as [d|] eqn:Ed.
    + exact (result_upload_date_digits DamtomoRecordIE clean_html_model record_net RID log res d E Ed).
    + vm_compute in E. injection E as _ E. rewrite <- E in Ed. vm_compute in Ed. discriminate Ed.
Defined.

Lemma not_in_forall_neg (x : Z) (l : pystr) :
  Forall (fun c => negb (c =? x) = true) l -> ~ In x l.
Proof.
  intros H Hin. rewrite List.Forall_forall in H. specialize (H x Hin).
  rewrite Z.eqb_refl in H. discriminate H.
Qed.

Lemma match_description_shape (s d : pystr) :
  match_description s = Some d ->
  ~ In LT d /\ (forall c u, d = c :: u -> is_space c = false)
  /\ (forall u c, d = u ++ [c] -> is_space c = false).
Proof.
  unfold match_description.
  destruct (is_prefix PUBLIC_COMMENT s); [|discriminate].
  destruct (is_prefix (py "<p>") _); [|discriminate].
  destruct (span _ _) as [region s3] eqn:Hsp.
  destruct (is_prefix (py "</p>") s3); [|discriminate].
  intros H. injection H as <-.
  apply span_spec in Hsp as (_ & Hreg & _).
  destruct (py_strip_parts region) as ((a & b & Hab) & Hh & Hl).
  split; [|split; assumption].
  intros Hin. apply (not_in_forall_neg LT region Hreg).
  rewrite Hab. apply in_or_app. right. apply in_or_app. left. exact Hin.
Qed.

Lemma match_uploader_id_shape (s u : pystr) :
  match_uploader_id s = Some u -> u <> [] /\ ~ In QUOTE u.
Proof.
  unfold match_uploader_id.
  destruct (is_prefix PROFILE_HREF s); [|discriminate].
  destruct (span _ _) as [g r] eqn:Hsp.
  destruct (bool_decide (g = [])) eqn:Hg; [discriminate|].
  destruct (is_prefix [QUOTE] r); [|discriminate].
  intros H. injection H as <-.
  apply span_spec in Hsp as (_ & Hreg & _).
  split.
  - intros E. rewrite E in Hg. discriminate Hg.
  - exact (not_in_forall_neg QUOTE g Hreg).
Qed.

(** The description of a result, when present, contains no [<] and neither
    starts nor ends with whitespace; its uploader id, when present, is not
    empty and contains no double quote. *)
Theorem result_page_fields (ie : extractor) (clean_html : pystr -> pystr) (n : net)
    (video_id : pystr) (log : list pystr) (res : info) :
  run (real_extract ie clean_html n video_id) = (log, inr res) ->
  (forall d, description res = Some d ->
     ~ In LT d /\ (forall c u, d = c :: u -> is_space c = false)
     /\ (forall u c, d = u ++ [c] -> is_space c = false))
  /\ (forall u, uploader_id res = Some u -> u <> [] /\ ~ In QUOTE u).
Proof.
  intros H.
  apply run_success in H
    as (webpage & h & un & st & sa & tree & m3u8 & a & ni & _ & _ & _ & _ & _
        & _ & _ & _ & _ & _ & _ & _ & ->).
  split.
  - intros d Hd. cbn [description] in Hd.
    apply search_sound in Hd as (pre & suf & _ & Hm). exact (match_description_shape suf d Hm).
  - intros u Hu. cbn [uploader_id] in Hu.
    apply search_sound in Hu as (pre & suf & _ & Hm). exact (match_uploader_id_shape suf u Hm).
Qed.

Lemma result_page_fields_witness :
  match snd (run (real_extract DamtomoRecordIE clean_html_model record_net RID)) with
  | inr res =>
      (forall d, description res = Some d ->
         ~ In LT d /\ (forall c u, d = c :: u -> is_space c = false)
         /\ (forall u c, d = u ++ [c] -> is_space c = false))
      /\ (forall u, uploader_id res = Some u -> u <> [] /\ ~ In QUOTE u)
  | inl _ => False
  end.
Proof.
  destruct (run (real_extract DamtomoRecordIE clean_html_model record_net RID)) as [log r] eqn:E.
  destruct r as [e|res]; cbn [snd].
  - vm_compute in E. discriminate E.
  - exact (result_page_fields DamtomoRecordIE clean_html_model record_net RID log res E).
Defined.

Lemma sub_ws_aux_nonempty (v : pystr) : v <> [] -> sub_ws_aux false v <> [].
Proof.
  destruct v as [|c v]; [congruence|]. intros _. simpl.
  destruct (is_space c); discriminate.
Qed.

Lemma sub_ws_aux_spaces (b : bool) (v : pystr) :
  Forall (fun c => is_space c = true -> c = SPACE) (sub_ws_aux b v).
Proof.
  revert b; induction v as [|c v IH]; intros b; simpl; [constructor|].
  destruct (is_space c) eqn:Hc; [destruct b|].
  - apply IH.
  - constructor; [reflexivity|apply IH].
  - constructor; [congruence|apply IH].
Qed.

Lemma sub_ws_aux_single (b : bool) (v : pystr) :
  (b = true -> forall c t, sub_ws_aux b v = c :: t -> is_space c = false)
  /\ (forall pre c1 c2 post, sub_ws_aux b v = pre ++ c1 :: c2 :: post ->
        is_space c1 = false \/ is_space c2 = false).
Proof.
  revert b; induction v as [|c v IH]; intros b; simpl.
  - split; [intros _ c t H; discriminate H|].
    intros pre c1 c2 post H. destruct pre; discriminate H.
  - destruct (IH true) as [Ht Hadj_t]. destruct (IH false) as [_ Hadj_f].
    destruct (is_space c) eqn:Hc; [destruct b|].
    + split; [intros _; exact (Ht eq_refl)|exact Hadj_t].
    + split; [intros E; discriminate E|].
      intros pre c1 c2 post H. destruct pre as [|x pre].
      * injection H as _ H. right. exact (Ht eq_refl c2 post H).
      * injection H as _ H. exact (Hadj_t pre c1 c2 post H).
    + split; [intros _ c' t H; injection H as <- _; exact Hc|].
      intros pre c1 c2 post H. destruct pre as [|x pre].
      * injection H as <- _. left. exact Hc.
      * injection H as _ H. exact (Hadj_f pre c1 c2 post H).
Qed.

Lemma field_value_shape (v : pystr) :
  v <> [] ->
  sub_ws v <> [] /\ Forall (fun c => is_space c = true -> c = SPACE) (sub_ws v)
  /\ (forall pre c1 c2 post, sub_ws v = pre ++ c1 :: c2 :: post ->
        is_space c1 = false \/ is_space c2 = false).
Proof.
  intros Hv. unfold sub_ws. split; [exact (sub_ws_aux_nonempty v Hv)|].
  split; [apply sub_ws_aux_spaces|]. apply sub_ws_aux_single.
Qed.

Lemma data_dict_value_shape (clean_html : pystr -> pystr) (webpage k v : pystr) :
  data_dict_of clean_html webpage !! k = Some v ->
  v <> [] /\ Forall (fun c => is_space c = true -> c = SPACE) v
  /\ (forall pre c1 c2 post, v = pre ++ c1 :: c2 :: post ->
        is_space c1 = false \/ is_space c2 = false).
Proof.
  rewrite data_dict_lookup.
  destruct (last_content k (finditer webpage)) as [c|]; [|discriminate].
  destruct (bool_decide (clean_html c = [])) eqn:E; [discriminate|].
  intros H. injection H as <-. apply field_value_shape.
  intros Hc. rewrite Hc in E. discriminate E.
Qed.

(** Every value of the FieldMap is non-empty, its only whitespace is the
    plain space, and no two whitespace code points are adjacent in it. *)
Theorem field_map_values (clean_html : pystr -> pystr) (webpage k v : pystr) :
  data_dict_of clean_html webpage !! k = Some v ->
  v <> [] /\ Forall (fun c => is_space c = true -> c = SPACE) v
  /\ (forall pre c1 c2 post, v = pre ++ c1 :: c2 :: post ->
        is_space c1 = false \/ is_space c2 = false).
Proof. apply data_dict_value_shape. Qed.

Lemma field_map_values_witness :
  match data_dict_of clean_html_model record_page !! py "user_name" with
  | Some v =>
      v <> [] /\ Forall (fun c => is_space c = true -> c = SPACE) v
      /\ (forall pre c1 c2 post, v = pre ++ c1 :: c2 :: post ->
            is_space c1 = false \/ is_space c2 = false)
  | None => False
  end.
Proof.
  destruct (data_dict_of clean_html_model record_page !! py "user_name") as [v|] eqn:E.
  - exact (field_map_values clean_html_model record_page (py "user_name") v E).
  - vm_compute in E. discriminate E.
Defined.

(** The song title and song artist of a result are non-empty, their only
    whitespace is the plain space, and no two whitespace code points are
    adjacent in them. *)
Theorem result_song_fields (ie : extractor) (clean_html : pystr -> pystr) (n : net)
    (video_id : pystr) (log : list pystr) (res : info) :
  run (real_extract ie clean_html n video_id) = (log, inr res) ->
  Forall (fun v => v <> [] /\ Forall (fun c => is_space c = true -> c = SPACE) v
     /\ (forall pre c1 c2 post, v = pre ++ c1 :: c2 :: post ->
           is_space c1 = false \/ is_space c2 = false))
    [song_title res; song_artist res].
Proof.
  intros H.
  apply run_success in H
    as (webpage & h & un & st & sa & tree & m3u8 & a & ni & _ & _ & _ & _ & _
        & _ & Hst & Hsa & _ & _ & _ & _ & ->).
  cbn [song_title song_artist].
  constructor; [exact (data_dict_value_shape _ _ _ _ Hst)|].
  constructor; [exact (data_dict_value_shape _ _ _ _ Hsa)|constructor].
Qed.

Lemma result_song_fields_witness :
  match snd (run (real_extract DamtomoRecordIE clean_html_model record_net RID)) with
  | inr res =>
      Forall (fun v => v <> [] /\ Forall (fun c => is_space c = true -> c = SPACE) v
         /\ (forall pre c1 c2 post, v = pre ++ c1 :: c2 :: post ->
               is_space c1 = false \/ is_space c2 = false))
        [song_title res; song_artist res]
  | inl _ => False
  end.
Proof.
  destruct (run (real_extract DamtomoRecordIE clean_html_model record_net RID)) as [log r] eqn:E.
  destruct r as [e|res]; cbn [snd].
  - vm_compute in E. discriminate E.
  - exact (result_song_fields DamtomoRecordIE clean_html_model record_net RID log res E).
Defined.

Lemma sub_san_prefix (s : pystr) :
  sub_san s = s
  \/ exists w1 w2, Forall (fun c => is_space c = true) w1
       /\ Forall (fun c => is_space c = true) w2 /\ s = sub_san s ++ w1 ++ SAN ++ w2.
Proof.
  induction s as [|c s IH]; [left; reflexivity|].
  rewrite sub_san_eq. destruct (ws_star_san_dollar (c :: s)) eqn:E.
  - right. apply ws_star_san_dollar_iff in E as (w1 & w2 & H1 & H2 & E).
    exists w1, w2. split; [exact H1|]. split; [exact H2|]. exact E.
  - destruct IH as [IH | (w1 & w2 & H1 & H2 & IH)].
    + left. rewrite IH. reflexivity.
    + right. exists w1, w2. split; [exact H1|]. split; [exact H2|].
      simpl. f_equal. exact IH.
Qed.

(** The uploader of a result is the FieldMap's [user_name] itself, or that
    value with a final [さん] removed together with the whitespace around
    it. *)
Theorem result_uploader_of_user_name (ie : extractor) (clean_html : pystr -> pystr) (n : net)
    (video_id : pystr) (log : list pystr) (res : info) :
  run (real_extract ie clean_html n video_id) = (log, inr res) ->
  exists webpage handle_url un,
    download_webpage_handle n (page_url ie video_id) = inr (webpage, handle_url)
    /\ data_dict_of clean_html webpage !! py "user_name" = Some un
    /\ (uploader res = un
        \/ exists w1 w2, Forall (fun c => is_space c = true) w1
             /\ Forall (fun c => is_space c = true) w2 /\ un = uploader res ++ w1 ++ SAN ++ w2).
Proof.
  intros H.
  apply run_success in H
    as (webpage & h & un & st & sa & tree & m3u8 & a & ni & Hdl & _ & _ & _ & _
        & Hun & _ & _ & _ & _ & _ & _ & ->).
  exists webpage, h, un. split; [exact Hdl|]. split; [exact Hun|].
  cbn [uploader]. destruct (sub_san_prefix un) as [E | (w1 & w2 & H1 & H2 & E)].
  - left. exact E.
  - right. exists w1, w2. split; [exact H1|]. split; [exact H2|exact E].
Qed.

Lemma result_uploader_of_user_name_witness :
  match snd (run (real_extract DamtomoRecordIE clean_html_model record_net RID)) with
  | inr res =>
      exists webpage handle_url un,
        download_webpage_handle record_net (page_url DamtomoRecordIE RID) = inr (webpage, handle_url)
        /\ data_dict_of clean_html_model webpage !! py "user_name" = Some un
        /\ (uploader res = un
            \/ exists w1 w2, Forall (fun c => is_space c = true) w1
                 /\ Forall (fun c => is_space c = true) w2 /\ un = uploader res ++ w1 ++ SAN ++ w2)
  | inl _ => False
  end.
Proof.
  destruct (run (real_extract DamtomoRecordIE clean_html_model record_net RID)) as [log r] eqn:E.
  destruct r as [e|res]; cbn [snd].
  - vm_compute in E. discriminate E.
  - exact (result_uploader_of_user_name DamtomoRecordIE clean_html_model record_net RID log res E).
Defined.

Lemma xml_nested_ind (P : xml -> Prop)
    (H : forall t x ch, Forall P ch -> P (Elem t x ch)) : forall e, P e.
Proof.
  fix IH 1. intros [t x ch]. apply H.
  revert ch. fix IHl 1. intros [|c cs]; constructor; [apply IH | apply IHl].
Qed.

Lemma find_desc_cons (q : pystr * pystr) t x c cs :
  find_desc q (Elem t x (c :: cs))
  = if bool_decide (elem_tag c = q) then Some c
    else match find_desc q c with Some r => Some r | None => find_desc q (Elem t x cs) end.
Proof. destruct c; reflexivity. Qed.

Lemma descendants_cons t x c cs :
  descendants (Elem t x (c :: cs)) = c :: descendants c ++ descendants (Elem t x cs).
Proof. reflexivity. Qed.

Lemma find_app {A} (f : A -> bool) (l1 l2 : list A) :
  List.find f (l1 ++ l2) = match List.find f l1 with Some y => Some y | None => List.find f l2 end.
Proof.
  induction l1 as [|y l1 IH]; [reflexivity|]. simpl. destruct (f y); [reflexivity|exact IH].
Qed.

(** [find_desc] returns the first proper descendant, in document order, whose
    qualified tag is the one asked for: the root itself is never returned,
    and a child's subtree is searched before the child's later siblings. *)
Theorem find_desc_document_order (q : pystr * pystr) (e : xml) :
  find_desc q e = List.find (fun c => bool_decide (elem_tag c = q)) (descendants e).
Proof.
  induction e as [t x ch Hch] using xml_nested_ind.
  induction Hch as [|c cs Hc _ IH]; [reflexivity|].
  rewrite find_desc_cons, descendants_cons. cbn [List.find].
  destruct (bool_decide (elem_tag c = q)); [reflexivity|].
  rewrite find_app, Hc, IH. reflexivity.
Qed.
